(** * QR-health: the edit-request approval engine

    A shallow embedding of
    - [src/server/routes/admin.js]: the four super-admin endpoints
      (list, count, approve, reject) over the patient and edit-request
      collections;
    - [src/client/src/pages/AdminRequests.jsx]: [fetchRequests] (the
      client-side orphan filter) and [formatChanges] (the rendered diff),
      and the click handlers [handleApprove] and [handleReject];
    - [src/client/src/pages/OwnerDashboard.jsx]: [fetchData] and
      [getRiskBadge];
    - the report routes (create, list, read, update, delete).

    Collections are finite maps keyed by [_id]; JavaScript objects are
    association lists in insertion order; every awaited store call may
    throw, which the handlers' [try]/[catch] forwards to [next(error)]. *)

From Stdlib Require Import ZArith String Ascii List Bool.
From stdpp Require Import base gmap strings list sorting pretty.
Import ListNotations.

Local Open Scope string_scope.
Local Open Scope Z_scope.

(** ** JavaScript values *)

Module JS.

(** The values that travel as JSON between server and client, plus
    [undefined] (what a missing property reads as).  Numbers are the
    integers; arrays and functions are outside the modelled domain. *)
#[warnings="-register-all"]
Inductive jsval : Type :=
| JUndefined
| JNull
| JBool (b : bool)
| JNum (n : Z)
| JStr (s : string)
| JObj (props : list (string * jsval)).

(** An object: its own enumerable properties, in insertion order. *)
Abbreviation jsobj := (list (string * jsval)).

(** Property names of a JavaScript object are pairwise distinct. *)
Definition wf_obj (o : jsobj) : Prop := NoDup (o.*1).

(** [o[k]]: the own property, [undefined] when there is none.  Property
    names are ordinary field names: members inherited from
    [Object.prototype] and the integer-first enumeration order are not
    modelled. *)
Fixpoint get_prop (o : jsobj) (k : string) : jsval :=
  match o with
  | [] => JUndefined
  | (k', v) :: rest => if String.eqb k' k then v else get_prop rest k
  end.

Fixpoint has_prop (o : jsobj) (k : string) : bool :=
  match o with
  | [] => false
  | (k', _) :: rest => String.eqb k' k || has_prop rest k
  end.

(** [o[k] = v]: overwrite in place, or append a new property. *)
Fixpoint set_prop (o : jsobj) (k : string) (v : jsval) : jsobj :=
  match o with
  | [] => [(k, v)]
  | (k', v') :: rest =>
      if String.eqb k' k then (k', v) :: rest
      else (k', v') :: set_prop rest k v
  end.

(** [v[k]] on an arbitrary value; only objects carry own properties
    here (members of primitives' wrappers are not modelled). *)
Definition get_member (v : jsval) (k : string) : jsval :=
  match v with
  | JObj o => get_prop o k
  | _ => JUndefined
  end.

(** [Object.entries(o)] for an object whose keys are field names: the
    insertion order.  (An integer-like key such as "1" would come first;
    [Domain.field_names] below says which objects are covered.) *)
Definition Object_entries (o : jsobj) : list (string * jsval) := o.

(** [Object.assign(target, source)]: every own property of [source] is
    assigned onto [target], in order.  The assignment is modelled for keys
    that are field names: a key naming an inherited accessor ([__proto__])
    would go to that accessor instead of becoming an own property. *)
Definition Object_assign (target source : jsobj) : jsobj :=
  fold_left (fun t kv => set_prop t (fst kv) (snd kv)) (Object_entries source) target.

(** [typeof v]. *)
Definition typeof (v : jsval) : string :=
  match v with
  | JUndefined => "undefined"
  | JNull => "object"
  | JBool _ => "boolean"
  | JNum _ => "number"
  | JStr _ => "string"
  | JObj _ => "object"
  end.

(** Truthiness, as used by [?:] and [||]. *)
Definition truthy (v : jsval) : bool :=
  match v with
  | JUndefined | JNull => false
  | JBool b => b
  | JNum n => negb (n =? 0)
  | JStr s => negb (String.eqb s EmptyString)
  | JObj _ => true
  end.

(** [a || b]. *)
Definition js_or (a b : jsval) : jsval := if truthy a then a else b.

(** [a === b].  Primitives compare by value.  Objects compare by
    identity; the two sides of every comparison in this program come from
    different places of a parsed response, so two objects are never the
    same one. *)
Definition strict_equal (a b : jsval) : bool :=
  match a, b with
  | JUndefined, JUndefined => true
  | JNull, JNull => true
  | JBool x, JBool y => Bool.eqb x y
  | JNum x, JNum y => x =? y
  | JStr x, JStr y => String.eqb x y
  | _, _ => false
  end.

(** [String(v)].  A number prints as its decimal digits, which is what
    JavaScript prints for the integers it represents exactly
    ([Domain.safe_number]); from 1e21 on it switches to exponent form. *)
Definition String_ (v : jsval) : string :=
  match v with
  | JUndefined => "undefined"
  | JNull => "null"
  | JBool true => "true"
  | JBool false => "false"
  | JNum n => pretty n
  | JStr s => s
  | JObj _ => "[object Object]"
  end.

(** *** JSON.stringify *)

Definition dquote : ascii := ascii_of_nat 34.
Definition backslash : ascii := ascii_of_nat 92.

Definition hex_digit (n : nat) : ascii :=
  if (n <? 10)%nat then ascii_of_nat (48 + n) else ascii_of_nat (87 + n).

(** One character of a string literal: the quote, the backslash and the
    control characters are escaped. *)
Definition escape_char (c : ascii) : string :=
  let n := nat_of_ascii c in
  if (n =? 34)%nat then String backslash (String dquote EmptyString)
  else if (n =? 92)%nat then String backslash (String backslash EmptyString)
  else if (n =? 8)%nat then String backslash "b"
  else if (n =? 9)%nat then String backslash "t"
  else if (n =? 10)%nat then String backslash "n"
  else if (n =? 12)%nat then String backslash "f"
  else if (n =? 13)%nat then String backslash "r"
  else if (n <? 32)%nat then
    String backslash
      (String "u" (String "0" (String "0"
         (String (hex_digit (n / 16)) (String (hex_digit (n mod 16)) EmptyString)))))
  else String c EmptyString.

Fixpoint escape (s : string) : string :=
  match s with
  | EmptyString => EmptyString
  | String c rest => escape_char c ++ escape rest
  end.

Definition quote (s : string) : string :=
  String dquote (escape s ++ String dquote EmptyString).

Definition join_comma (parts : list string) : string :=
  match parts with
  | [] => EmptyString
  | p :: ps => fold_left (fun acc q => acc ++ "," ++ q) ps p
  end.

(** [JSON.stringify(v)]; [None] is the result [undefined].  A property
    whose value serialises to [undefined] is left out of its object. *)
Fixpoint JSON_stringify (v : jsval) : option string :=
  match v with
  | JUndefined => None
  | JNull => Some "null"
  | JBool true => Some "true"
  | JBool false => Some "false"
  | JNum n => Some (pretty n)
  | JStr s => Some (quote s)
  | JObj props =>
      let members :=
        (fix go (ps : list (string * jsval)) : list string :=
           match ps with
           | [] => []
           | (k, w) :: rest =>
               match JSON_stringify w with
               | Some t => (quote k ++ ":" ++ t) :: go rest
               | None => go rest
               end
           end) props in
      Some ("{" ++ join_comma members ++ "}")
  end.

(** Equality of two [JSON.stringify] results ([undefined === undefined]
    included). *)
Definition same_json (a b : option string) : bool :=
  match a, b with
  | None, None => true
  | Some x, Some y => String.eqb x y
  | _, _ => false
  end.

End JS.

(** ** The store and the replies *)

Module Store.
Import JS.

(** Modelled from the spec: the status enumeration of the
    [PatientEditRequest] schema ([models/PatientEditRequest.js] is not
    among the sources).  These are the three values the routes compare
    with and assign. *)
Inductive status : Type := PENDING | APPROVED | REJECTED.

Global Instance status_eq_dec : EqDecision status.
Proof. solve_decision. Defined.

(** An edit-request document; its [_id] is its key in the collection. *)
Record editRequest : Type := mkRequest {
  patient : string;
  hospital : string;
  requestedChanges : jsobj;
  status_of : status;
  createdAt : Z
}.

Definition with_status (r : editRequest) (s : status) : editRequest :=
  mkRequest (patient r) (hospital r) (requestedChanges r) s (createdAt r).

(** The three collections the routes touch.  A patient document is a
    plain object; its [_id] is its key. *)
Record db : Type := mkDb {
  patients : gmap string jsobj;
  requests : gmap string editRequest;
  hospitals : gmap string string
}.

Definition with_patients (st : db) (ps : gmap string jsobj) : db :=
  mkDb ps (requests st) (hospitals st).

Definition with_requests (st : db) (rs : gmap string editRequest) : db :=
  mkDb (patients st) rs (hospitals st).

(** Which awaited store calls reject during one handler run. *)
Record faults : Type := mkFaults {
  requests_read_fails : bool;
  patients_read_fails : bool;
  patients_write_fails : bool;
  requests_write_fails : bool
}.

Definition no_faults : faults := mkFaults false false false false.

(** A request as the listing returns it: [patient] and [hospital]
    populated ([None] is [null], the reference did not resolve). *)
Record populatedRequest : Type := mkPopulated {
  req_id : string;
  req_patient : option jsobj;
  req_hospital : option string;
  req_requestedChanges : jsobj;
  req_status : status;
  req_createdAt : Z
}.

(** What a handler sends: a [{success, message}] body, or one of the
    [success: true] bodies that carry data. *)
Inductive body : Type :=
| Message (success : bool) (message : string)
| RequestList (count : nat) (requests : list populatedRequest)
| PendingCount (count : nat)
| PatientUpdated (message : string) (patient : jsobj).

Inductive reply : Type :=
| Json (code : Z) (b : body)
| NextError.

(** The error kinds of the specification, as the routes report them. *)
Definition ForbiddenError : reply :=
  Json 403 (Message false "Access denied. Super Admin only.").
Definition RequestNotFoundError : reply :=
  Json 404 (Message false "Request not found").
Definition AlreadyResolvedError : reply :=
  Json 400 (Message false "Request is already processed").
Definition RecordNotFoundError : reply :=
  Json 404 (Message false "Patient not found").

(** *** A handler body: state, early response, exception *)

Inductive outcome (A : Type) : Type :=
| Value (a : A)
| Responded (r : reply)
| Threw.
Arguments Value {A} a.
Arguments Responded {A} r.
Arguments Threw {A}.

Definition action (A : Type) : Type := db -> outcome A * db.

Definition ret {A} (a : A) : action A := fun st => (Value a, st).

Definition bind {A B} (m : action A) (k : A -> action B) : action B :=
  fun st =>
    match m st with
    | (Value a, st') => k a st'
    | (Responded r, st') => (Responded r, st')
    | (Threw, st') => (Threw, st')
    end.

(** [return res.status(code).json(b)]. *)
Definition respond {A} (r : reply) : action A := fun st => (Responded r, st).

Definition throw {A} : action A := fun st => (Threw, st).

(** [if (c) return res...;] *)
Definition return_if (c : bool) (r : reply) : action unit :=
  if c then respond r else ret tt.

Notation "x <- m ;; k" := (bind m (fun x => k))
  (at level 100, m at next level, right associativity).
Notation "m ;;; k" := (bind m (fun _ => k))
  (at level 100, right associativity).

(** [try { ... } catch (error) { next(error) }]. *)
Definition try_catch (m : action reply) : db -> reply * db :=
  fun st =>
    match m st with
    | (Value r, st') => (r, st')
    | (Responded r, st') => (r, st')
    | (Threw, st') => (NextError, st')
    end.

(** *** Store calls *)

Definition awaiting {A} (fails : bool) (m : action A) : action A :=
  if fails then throw else m.

Definition PatientEditRequest_findById (f : faults) (id : string)
  : action (option editRequest) :=
  awaiting (requests_read_fails f) (fun st => (Value (requests st !! id), st)).

Definition Patient_findById (f : faults) (id : string) : action (option jsobj) :=
  awaiting (patients_read_fails f) (fun st => (Value (patients st !! id), st)).

Definition patient_save (f : faults) (id : string) (doc : jsobj) : action unit :=
  awaiting (patients_write_fails f)
    (fun st => (Value tt, with_patients st (<[id := doc]> (patients st)))).

Definition request_save (f : faults) (id : string) (doc : editRequest) : action unit :=
  awaiting (requests_write_fails f)
    (fun st => (Value tt, with_requests st (<[id := doc]> (requests st)))).

(** [find({ status: 'PENDING' })]. *)
Definition is_pending (r : editRequest) : bool := bool_decide (status_of r = PENDING).

Definition find_pending (st : db) : list (string * editRequest) :=
  filter (fun kr => is_pending (snd kr) = true) (map_to_list (requests st)).

(** [.populate('patient').populate('hospital', 'name')]. *)
Definition populate (st : db) (kr : string * editRequest) : populatedRequest :=
  let r := snd kr in
  mkPopulated (fst kr) (patients st !! patient r) (hospitals st !! hospital r)
              (requestedChanges r) (status_of r) (createdAt r).

(** [.sort({ createdAt: -1 })]: newest first. *)
Definition newest_first (a b : populatedRequest) : Prop :=
  req_createdAt b <= req_createdAt a.

Global Instance newest_first_dec : RelDecision newest_first.
Proof. intros a b. unfold newest_first. apply _. Defined.

Global Instance newest_first_total : Total newest_first.
Proof. intros a b. unfold newest_first. lia. Qed.

Global Instance newest_first_trans : Transitive newest_first.
Proof. intros a b c. unfold newest_first. lia. Qed.

Definition PatientEditRequest_find_pending (f : faults)
  : action (list populatedRequest) :=
  awaiting (requests_read_fails f)
    (fun st => (Value (merge_sort newest_first (populate st <$> find_pending st)), st)).

(** [countDocuments({ status: 'PENDING' })]. *)
Definition PatientEditRequest_count_pending (f : faults) : action nat :=
  awaiting (requests_read_fails f)
    (fun st => (Value (length (find_pending st)), st)).

End Store.

(** ** src/server/routes/admin.js *)

Module Admin.
Import JS Store.

(** What the routes read of the incoming request.  [userRole] is what
    [authMiddleware] (not among the sources) attached to it. *)
Record expressRequest : Type := mkReq {
  userRole : string;
  params_id : string
}.

Definition handler : Type := faults -> expressRequest -> db -> reply * db.

(** Middleware to ensure SUPER_ADMIN. *)
Definition ensureSuperAdmin (next : handler) : handler :=
  fun f req st =>
    if negb (String.eqb (userRole req) "SUPER_ADMIN")
    then (ForbiddenError, st)
    else next f req st.

(** GET /api/admin/requests *)
Definition getRequests : handler :=
  ensureSuperAdmin (fun f req =>
    try_catch (
      requests <- PatientEditRequest_find_pending f ;;
      ret (Json 200 (RequestList (length requests) requests)))).

(** GET /api/admin/requests/count *)
Definition getRequestsCount : handler :=
  ensureSuperAdmin (fun f req =>
    try_catch (
      count <- PatientEditRequest_count_pending f ;;
      ret (Json 200 (PendingCount count)))).

(** POST /api/admin/requests/:id/approve *)
Definition approve : handler :=
  ensureSuperAdmin (fun f req =>
    try_catch (
      found <- PatientEditRequest_findById f (params_id req) ;;
      match found with
      | None => respond RequestNotFoundError
      | Some request =>
          return_if (negb (is_pending request)) AlreadyResolvedError ;;;
          found_patient <- Patient_findById f (patient request) ;;
          match found_patient with
          | None => respond RecordNotFoundError
          | Some doc =>
              let doc' := Object_assign doc (requestedChanges request) in
              patient_save f (patient request) doc' ;;;
              request_save f (params_id req) (with_status request APPROVED) ;;;
              ret (Json 200 (PatientUpdated "Request approved and patient updated" doc'))
          end
      end)).

(** POST /api/admin/requests/:id/reject *)
Definition reject : handler :=
  ensureSuperAdmin (fun f req =>
    try_catch (
      found <- PatientEditRequest_findById f (params_id req) ;;
      match found with
      | None => respond RequestNotFoundError
      | Some request =>
          return_if (negb (is_pending request)) AlreadyResolvedError ;;;
          request_save f (params_id req) (with_status request REJECTED) ;;;
          ret (Json 200 (Message true "Request rejected"))
      end)).

End Admin.

(** ** src/client/src/pages/AdminRequests.jsx *)

Module Client.
Import JS Store.

(** What [axios] resolves with: a reply outside 2xx rejects, and so does
    an error forwarded to the error middleware. *)
Definition axios_data (response : reply) : option body :=
  match response with
  | Json code b => if (200 <=? code) && (code <? 300) then Some b else None
  | NextError => None
  end.

(** [fetchRequests]: the new value of the [requests] state; on any
    failure the state keeps what it [shown] before. *)
Definition fetchRequests (response : reply) (shown : list populatedRequest)
  : list populatedRequest :=
  match axios_data response with
  | Some (RequestList _ requests) =>
      (* Filter out requests where patient data might be missing *)
      filter (fun req => is_Some (req_patient req)) requests
  | _ => shown
  end.

(** The elements [formatChanges] renders, reduced to their text. *)
Inductive subChange : Type :=
| SubChange (subKey oldText newText : string).

Inductive change : Type :=
| FlatChange (key oldText newText : string)
| NestedChange (key : string) (rows : list (option subChange)).

Definition NA : jsval := JStr "N/A".

(** The own properties [Object.entries] walks through. *)
Definition own_props (v : jsval) : jsobj :=
  match v with
  | JObj o => o
  | _ => []
  end.

(** The inner [map] callback of the nested case. *)
Definition formatSubChange (oldValue : jsval) (entry : string * jsval)
  : option subChange :=
  let subKey := fst entry in
  let subNewValue := snd entry in
  let subOldValue := if truthy oldValue then get_member oldValue subKey else NA in
  if same_json (JSON_stringify subOldValue) (JSON_stringify subNewValue) then None
  else Some (SubChange subKey (String_ (js_or subOldValue NA)) (String_ subNewValue)).

(** The outer [map] callback; [None] is the [null] React skips. *)
Definition formatChange (patient : jsobj) (entry : string * jsval) : option change :=
  let key := fst entry in
  let newValue := snd entry in
  let oldValue := get_prop patient key in
  (* Handle nested objects (like emergencyContact) *)
  if String.eqb (typeof newValue) "object" && negb (strict_equal newValue JNull) then
    Some (NestedChange key
            (map (formatSubChange oldValue) (Object_entries (own_props newValue))))
  else
    (* Skip if value hasn't changed *)
    if strict_equal oldValue newValue then None
    else Some (FlatChange key (String_ (js_or oldValue NA)) (String_ newValue)).

Definition formatChanges (request : populatedRequest) : list (option change) :=
  let changes := req_requestedChanges request in
  let patient := default [] (req_patient request) in
  map (formatChange patient) (Object_entries changes).

End Client.

(** ** The operations of the specification, on the code *)

Module Engine.
Import JS Store Admin Client.

(** [listPending]: what the reviewer's page holds after loading. *)
Definition listPending (f : faults) (req : expressRequest) (st : db)
  : list populatedRequest :=
  fetchRequests (fst (getRequests f req st)) [].

(** [countPending]: the count endpoint's reply. *)
Definition countPending (f : faults) (req : expressRequest) (st : db) : reply :=
  fst (getRequestsCount f req st).

(** The calls a reviewer session is made of. *)
Inductive call : Type :=
| CallList (f : faults) (req : expressRequest)
| CallCount (f : faults) (req : expressRequest)
| CallApprove (f : faults) (req : expressRequest)
| CallReject (f : faults) (req : expressRequest).

(** One call served from start to end with no other call in between;
    [Interleaving] below splits a handler run at its awaits. *)
Definition step (c : call) (st : db) : reply * db :=
  match c with
  | CallList f req => getRequests f req st
  | CallCount f req => getRequestsCount f req st
  | CallApprove f req => approve f req st
  | CallReject f req => reject f req st
  end.

(** The stores a sequence of calls goes through, the first included. *)
Fixpoint run (st : db) (calls : list call) : list db :=
  match calls with
  | [] => [st]
  | c :: rest => st :: run (snd (step c st)) rest
  end.

(** The status of request [id] in a store. *)
Definition status_in (id : string) (st : db) : option status :=
  status_of <$> requests st !! id.

(** How many times a value changes along a history. *)
Fixpoint transitions (h : list (option status)) : nat :=
  match h with
  | a :: (b :: _) as rest =>
      ((if decide (a = b) then 0 else 1) + transitions rest)%nat
  | _ => 0%nat
  end.

End Engine.

(** ** Notions the properties are stated with *)

Module Notions.
Import JS Store Admin Client Engine.

(** The Elevated tier: the role [ensureSuperAdmin] lets through. *)
Definition is_super_admin (req : expressRequest) : bool :=
  String.eqb (userRole req) "SUPER_ADMIN".

(** The store after the record was saved, and after both saves. *)
Definition record_saved (st : db) (request : editRequest) (doc : jsobj) : db :=
  with_patients st
    (<[patient request := Object_assign doc (requestedChanges request)]> (patients st)).

Definition request_resolved (st : db) (id : string) (request : editRequest)
  (s : status) : db :=
  with_requests st (<[id := with_status request s]> (requests st)).

(** The success reply of [approve]. *)
Definition is_approved_reply (rep : reply) : Prop :=
  ∃ doc, rep = Json 200 (PatientUpdated "Request approved and patient updated" doc).

(** The full approve sequence: record merged and saved, status APPROVED. *)
Definition approve_completed (req : expressRequest) (st st' : db) : Prop :=
  ∃ r doc,
    requests st !! params_id req = Some r ∧
    patients st !! patient r = Some doc ∧
    st' = request_resolved (record_saved st r doc) (params_id req) r APPROVED.

(** Atomicity as the specification words it: all of the sequence, or
    no change to any record or request. *)
Definition approve_atomic (f : faults) (req : expressRequest) (st : db) : Prop :=
  approve_completed req st (snd (approve f req st)) ∨ snd (approve f req st) = st.

(** The nested merge as the specification words it: within a nested
    field, a mentioned sub-key takes the proposed value and every other
    sub-key keeps the old one. *)
Definition shallow_merged (doc changes doc' : jsobj) : Prop :=
  ∀ key sub sk,
    (key, JObj sub) ∈ changes →
    get_member (get_prop doc' key) sk =
    if has_prop sub sk then get_prop sub sk else get_member (get_prop doc key) sk.

(** The schema check as the specification words it: a payload with a key
    outside the [editable] set makes approve fail and leaves the store
    alone. *)
Definition rejects_ineligible (editable : string → bool)
  (f : faults) (req : expressRequest) (st : db) : Prop :=
  ∀ r key,
    requests st !! params_id req = Some r →
    key ∈ (requestedChanges r).*1 →
    editable key = false →
    ¬ is_approved_reply (fst (approve f req st)) ∧ snd (approve f req st) = st.


(** The call is an approve or a reject of request [id]. *)
Definition resolves (id : string) (c : call) : Prop :=
  match c with
  | CallApprove _ req | CallReject _ req => params_id req = id
  | _ => False
  end.



End Notions.
Export Notions.

(** ** Scenarios *)

Module Scenarios.
Import JS Store Admin Client Engine.

Definition super_admin (id : string) : expressRequest := mkReq "SUPER_ADMIN" id.
Definition hospital_admin (id : string) : expressRequest := mkReq "HOSPITAL_ADMIN" id.

(** Scenario B of the specification. *)
Definition alice : jsobj :=
  [("name", JStr "Alice");
   ("contact", JObj [("phone", JStr "111"); ("email", JStr "a@x.com")])].

Definition phone_change : jsobj := [("contact", JObj [("phone", JStr "222")])].

Definition stB : db :=
  mkDb {[ "p1" := alice ]}
       {[ "r1" := mkRequest "p1" "h1" phone_change PENDING 10 ]}
       {[ "h1" := "General" ]}.

Definition alice_after : jsobj :=
  [("name", JStr "Alice"); ("contact", JObj [("phone", JStr "222")])].

(** A payload that names the ownership field. *)
Definition owned : jsobj := [("fullName", JStr "Bob"); ("hospital", JStr "h1")].

Definition takeover : jsobj := [("hospital", JStr "h2")].

Definition stOwner : db :=
  mkDb {[ "p1" := owned ]}
       {[ "r1" := mkRequest "p1" "h2" takeover PENDING 10 ]}
       {[ "h1" := "General"; "h2" := "Mercy" ]}.

Definition ownership_protected (key : string) : bool :=
  negb (String.eqb key "hospital").

(** The status save fails after the record save went through. *)
Definition status_save_fails : faults := mkFaults false false false true.

(** Scenario E: three pending requests, one of a deleted patient. *)
Definition stE : db :=
  mkDb {[ "p1" := alice ]}
       {[ "r1" := mkRequest "p1" "h1" phone_change PENDING 10;
          "r2" := mkRequest "gone" "h1" phone_change PENDING 20;
          "r3" := mkRequest "p1" "h1" takeover PENDING 30 ]}
       {[ "h1" := "General" ]}.

(** A request already approved, and one whose patient is gone. *)
Definition stResolved : db :=
  mkDb {[ "p1" := alice ]}
       {[ "r1" := mkRequest "p1" "h1" phone_change APPROVED 10 ]}
       {[ "h1" := "General" ]}.

Definition stOrphan : db :=
  mkDb ∅
       {[ "r1" := mkRequest "p1" "h1" phone_change PENDING 10 ]}
       {[ "h1" := "General" ]}.

(** A patient without emergency contact, and a proposal that fills one
    in with the text N/A. *)
Definition na_request : populatedRequest :=
  mkPopulated "r1" (Some [("fullName", JStr "Bob")]) (Some "General")
              [("emergencyContact", JObj [("name", JStr "N/A")])] PENDING 10.

End Scenarios.

(** ** The reviewer's page and its handlers *)

Module Page.
Import JS Store Admin Client.

(** What [react-hot-toast] was asked to show. *)
Inductive toast : Type :=
| ToastSuccess (msg : string)
| ToastError (msg : string).

(** The component state of [AdminRequests], the toasts raised so far and
    the number of [request-updated] events dispatched to the sidebar. *)
Record page : Type := mkPage {
  page_requests : list populatedRequest;
  page_loading : bool;
  page_toasts : list toast;
  page_events : nat
}.

(** [useState([])], [useState(true)]. *)
Definition initial_page : page := mkPage [] true [] 0.

Definition add_toast (t : toast) (pg : page) : page :=
  mkPage (page_requests pg) (page_loading pg) (page_toasts pg ++ [t])%list (page_events pg).

(** The [try] block of [fetchRequests] ran to its end. *)
Definition loaded (response : reply) : bool :=
  match axios_data response with
  | Some (RequestList _ _) => true
  | _ => false
  end.

(** [fetchRequests] on the whole page: [setRequests] on success, the
    error toast otherwise, [setLoading(false)] in both cases. *)
Definition fetchRequestsPage (response : reply) (pg : page) : page :=
  let toasts :=
    if loaded response then page_toasts pg
    else (page_toasts pg ++ [ToastError "Failed to load requests"])%list in
  mkPage (fetchRequests response (page_requests pg)) false toasts (page_events pg).

(** The signed-in user behind the page: the role the server will see. *)
Definition as_user (role : string) (id : string) : expressRequest := mkReq role id.

(** The server and the page together. *)
Definition world : Type := db * page.

(** After a successful post: the success toast, the sidebar event, and a
    reload through [fetchRequests]. *)
Definition after_success (msg : string) (f_get : faults) (role : string)
  (st : db) (pg : page) : world :=
  let pg1 := mkPage (page_requests pg) (page_loading pg)
                    (page_toasts pg ++ [ToastSuccess msg])%list (S (page_events pg)) in
  let got := getRequests f_get (as_user role EmptyString) st in
  (snd got, fetchRequestsPage (fst got) pg1).

(** [handleApprove(id)]; [f_post] and [f_get] are the store faults during
    the post and during the reload. *)
Definition handleApprove (f_post f_get : faults) (role : string) (id : string)
  (w : world) : world :=
  let posted := approve f_post (as_user role id) (fst w) in
  match axios_data (fst posted) with
  | Some _ => after_success "Request approved" f_get role (snd posted) (snd w)
  | None => (snd posted, add_toast (ToastError "Failed to approve request") (snd w))
  end.

(** [handleReject(id)]; [confirmed] is the answer to [window.confirm]. *)
Definition handleReject (confirmed : bool) (f_post f_get : faults) (role : string)
  (id : string) (w : world) : world :=
  if negb confirmed then w
  else
    let posted := reject f_post (as_user role id) (fst w) in
    match axios_data (fst posted) with
    | Some _ => after_success "Request rejected" f_get role (snd posted) (snd w)
    | None => (snd posted, add_toast (ToastError "Failed to reject request") (snd w))
    end.

(** The [useEffect] on mount. *)
Definition mount (f_get : faults) (role : string) (st : db) : world :=
  let got := getRequests f_get (as_user role EmptyString) st in
  (snd got, fetchRequestsPage (fst got) initial_page).

(** What a user does on the page. *)
Inductive gesture : Type :=
| Reload (f_get : faults)
| ClickApprove (f_post f_get : faults) (id : string)
| ClickReject (confirmed : bool) (f_post f_get : faults) (id : string).

Definition act (role : string) (a : gesture) (w : world) : world :=
  match a with
  | Reload f_get =>
      let got := getRequests f_get (as_user role EmptyString) (fst w) in
      (snd got, fetchRequestsPage (fst got) (snd w))
  | ClickApprove f_post f_get id => handleApprove f_post f_get role id w
  | ClickReject confirmed f_post f_get id => handleReject confirmed f_post f_get role id w
  end.

Definition session (role : string) (gestures : list gesture) (w : world) : world :=
  fold_left (fun w a => act role a w) gestures w.

(** Every request on the page carries its patient. *)
Definition page_ok (pg : page) : Prop :=
  Forall (fun request => is_Some (req_patient request)) (page_requests pg).




End Page.

(** ** What stays the same in the store *)

Module Frame.
Import JS Store Admin Engine.

(** Two versions of a request that differ at most in the status. *)
Definition same_but_status (r r' : editRequest) : Prop :=
  patient r = patient r' ∧
  hospital r = hospital r' ∧
  requestedChanges r = requestedChanges r' ∧
  createdAt r = createdAt r'.

(** A value without own properties to walk: not an object. *)
Definition scalar (v : jsval) : Prop :=
  match v with
  | JObj _ => False
  | _ => True
  end.

End Frame.

(** ** Reading a string literal back *)

Module Unquote.
Import JS.

(** The character a two-character escape stands for. *)
Definition unescape_letter (d : ascii) : ascii :=
  if Ascii.eqb d "b" then ascii_of_nat 8
  else if Ascii.eqb d "t" then ascii_of_nat 9
  else if Ascii.eqb d "n" then ascii_of_nat 10
  else if Ascii.eqb d "f" then ascii_of_nat 12
  else if Ascii.eqb d "r" then ascii_of_nat 13
  else d.

Definition hex_value (c : ascii) : nat :=
  let n := nat_of_ascii c in
  if (n <? 58)%nat then (n - 48)%nat else (n - 87)%nat.

(** The inverse of [escape], used to show that [JSON.stringify] tells
    different strings apart. *)
Fixpoint unescape (s : string) : string :=
  match s with
  | EmptyString => EmptyString
  | String c rest =>
      if Ascii.eqb c backslash then
        match rest with
        | String d rest' =>
            if Ascii.eqb d "u" then
              match rest' with
              | String _ (String _ (String h (String l rest''))) =>
                  String (ascii_of_nat (16 * hex_value h + hex_value l)) (unescape rest'')
              | _ => EmptyString
              end
            else String (unescape_letter d) (unescape rest')
        | EmptyString => EmptyString
        end
      else String c (unescape rest)
  end.

(** The first character of a text is one of [chars]. *)
Definition starts_with (chars : list ascii) (s : string) : Prop :=
  match s with
  | String c _ => c ∈ chars
  | EmptyString => False
  end.

Definition digits : list ascii :=
  ["0"; "1"; "2"; "3"; "4"; "5"; "6"; "7"; "8"; "9"]%char.

End Unquote.

(** ** src/client/src/pages/OwnerDashboard.jsx *)

Module Dashboard.
Import JS.

Record stats : Type := mkStats {
  totalHospitals : nat;
  totalPatients : nat;
  approvedHospitals : nat;
  pendingHospitals : nat
}.

(** The component state, and the error toasts raised so far. *)
Record dashboard : Type := mkDashboard {
  dash_stats : stats;
  recentPatients : list jsobj;
  dash_loading : bool;
  dash_toasts : list string
}.

(** The three [useState] initial values. *)
Definition initial_dashboard : dashboard :=
  mkDashboard (mkStats 0 0 0 0) [] true [].

(** What one [axios.get] gave: the promise rejected, or a body whose
    list field ([hospitals], [patients]) is an array or is missing. *)
Inductive fetched : Type :=
| Rejected
| Data (items : option (list jsobj)).

(** [h.status === status]. *)
Definition has_status (status : string) (h : jsobj) : Prop :=
  strict_equal (get_prop h "status") (JStr status) = true.

Global Instance has_status_dec status h : Decision (has_status status h).
Proof. unfold has_status. apply _. Defined.

(** [fetchData]: both requests must succeed and both bodies must carry
    their list, else the [catch] raises the toast; [finally] clears
    [loading]. *)
Definition fetchData (hospitalsRes patientsRes : fetched) (d : dashboard) : dashboard :=
  match hospitalsRes, patientsRes with
  | Data (Some hospitals), Data (Some patients) =>
      mkDashboard
        (mkStats (length hospitals)
                 (length patients)
                 (length (filter (has_status "APPROVED") hospitals))
                 (length (filter (has_status "PENDING") hospitals)))
        (* Get recent 10 patients *)
        (take 10 patients)
        false
        (dash_toasts d)
  | _, _ =>
      mkDashboard (dash_stats d) (recentPatients d) false
                  (dash_toasts d ++ ["Failed to load dashboard data"])%list
  end.

(** The [useEffect]: the data is fetched only for a super admin. *)
Definition on_mount (isSuperAdmin : bool) (hospitalsRes patientsRes : fetched)
  (d : dashboard) : dashboard :=
  if isSuperAdmin then fetchData hospitalsRes patientsRes d else d.

(** Both requests succeeded and both bodies carry their list. *)
Definition load_ok (load : fetched * fetched) : bool :=
  match load with
  | (Data (Some _), Data (Some _)) => true
  | _ => false
  end.

(** The dashboard after a series of loads. *)
Definition after_loads (loads : list (fetched * fetched)) : dashboard :=
  fold_left (fun d load => fetchData (fst load) (snd load) d) loads initial_dashboard.


(** The names every object literal inherits from [Object.prototype]. *)
Definition Object_prototype_names : list string :=
  ["constructor"; "hasOwnProperty"; "isPrototypeOf"; "propertyIsEnumerable";
   "toLocaleString"; "toString"; "valueOf"; "__proto__";
   "__defineGetter__"; "__defineSetter__"; "__lookupGetter__"; "__lookupSetter__"].


(** The numbers on the cards fit together. *)
Definition stats_consistent (d : dashboard) : Prop :=
  (approvedHospitals (dash_stats d) + pendingHospitals (dash_stats d)
     ≤ totalHospitals (dash_stats d))%nat ∧
  (length (recentPatients d) ≤ 10)%nat ∧
  (length (recentPatients d) ≤ totalPatients (dash_stats d))%nat.

End Dashboard.

(** ** The report routes (src/unnamed/part_000) *)

Module Reports.
Import JS.

(** A report document; its [_id] is its key.  The texts are strings, the
    date is a timestamp; [rep_hospital] is what [req.userHospital] was
    when the report was created ([None] is [undefined]). *)
Record report : Type := mkReport {
  rep_patient : string;
  rep_hospital : option string;
  rep_title : string;
  rep_description : string;
  rep_reportType : string;
  rep_reportDate : Z;
  rep_reportFileUrl : string;
  rep_createdBy : string
}.

Record rdb : Type := mkRdb {
  r_patients : gmap string jsobj;
  r_reports : gmap string report
}.

Definition with_reports (st : rdb) (rs : gmap string report) : rdb :=
  mkRdb (r_patients st) rs.

(** Which awaited calls reject during one handler run. *)
Record rfaults : Type := mkRfaults {
  patient_read_fails : bool;
  report_read_fails : bool;
  report_write_fails : bool;
  report_populate_fails : bool
}.

Definition no_rfaults : rfaults := mkRfaults false false false false.

(** What a handler run takes from outside the store: the clock
    ([Date.now()]), the cast of a date text to a timestamp, and the [_id]
    a new document gets. *)
Record renv : Type := mkEnv {
  now : Z;
  castDate : string → Z;
  new_id : string
}.

(** The fields the routes destructure from [req.body]; [None] is
    [undefined], the values are strings. *)
Record reportBody : Type := mkBody {
  b_patientId : option string;
  b_title : option string;
  b_description : option string;
  b_reportType : option string;
  b_reportDate : option string;
  b_reportFileUrl : option string
}.

(** What the routes read of the request; the [user...] fields are what
    [authMiddleware] attached. *)
Record reportRequest : Type := mkRreq {
  r_userRole : string;
  r_userHospital : option string;
  r_userId : string;
  r_param : string;
  r_body : reportBody
}.

(** The replies, reduced to what the routes decide (the populated
    sub-documents of a report are left out). *)
Inductive rbody : Type :=
| RMessage (success : bool) (message : string)
| RReport (message : option string) (id : string) (doc : report)
| RReports (count : nat) (reports : list (string * report)).

Inductive rreply : Type :=
| RJson (code : Z) (b : rbody)
| RNextError.

(** Truthiness of a body field: defined and not the empty string. *)
Definition present (o : option string) : bool :=
  match o with
  | Some s => negb (String.eqb s EmptyString)
  | None => false
  end.

Definition text (o : option string) : string := default EmptyString o.

(** [field || fallback]. *)
Definition or_else (o : option string) (fallback : string) : string :=
  if present o then text o else fallback.

(** [v.toString()]; [None] is the TypeError on [undefined] and [null]. *)
Definition toString_method (v : jsval) : option string :=
  match v with
  | JUndefined | JNull => None
  | _ => Some (String_ v)
  end.

Inductive verdict : Type := Allowed | Denied | TypeError.

(** [owner.toString() !== req.userHospital.toString()], skipped for
    SUPER_ADMIN. *)
Definition check_hospital (req : reportRequest) (owner : option string) : verdict :=
  if negb (String.eqb (r_userRole req) "SUPER_ADMIN") then
    match owner, r_userHospital req with
    | Some a, Some b => if negb (String.eqb a b) then Denied else Allowed
    | _, _ => TypeError
    end
  else Allowed.

Definition patient_hospital (doc : jsobj) : option string :=
  toString_method (get_prop doc "hospital").

Definition handler : Type := renv → rfaults → reportRequest → rdb → rreply * rdb.

(** POST /api/reports *)
Definition createReport : handler := fun e f req st =>
  let b := r_body req in
  if negb (present (b_patientId b)) || negb (present (b_title b)) then
    (RJson 400 (RMessage false "Patient ID and title are required"), st)
  else if patient_read_fails f then (RNextError, st)
  else
    match r_patients st !! text (b_patientId b) with
    | None => (RJson 404 (RMessage false "Patient not found"), st)
    | Some doc =>
        match check_hospital req (patient_hospital doc) with
        | TypeError => (RNextError, st)
        | Denied =>
            (RJson 403 (RMessage false
               "You can only create reports for patients in your hospital"), st)
        | Allowed =>
            let created :=
              mkReport (text (b_patientId b))
                       (r_userHospital req)
                       (text (b_title b))
                       (or_else (b_description b) EmptyString)
                       (or_else (b_reportType b) "Other")
                       (if present (b_reportDate b)
                        then castDate e (text (b_reportDate b)) else now e)
                       (or_else (b_reportFileUrl b) EmptyString)
                       (r_userId req) in
            if report_write_fails f then (RNextError, st)
            else
              let st' := with_reports st (<[new_id e := created]> (r_reports st)) in
              if report_populate_fails f then (RNextError, st')
              else (RJson 201 (RReport (Some "Report created successfully")
                                 (new_id e) created), st')
        end
    end.

(** [.sort({ reportDate: -1 })]. *)
Definition newest_report (a b : string * report) : Prop :=
  rep_reportDate (snd b) <= rep_reportDate (snd a).

Global Instance newest_report_dec : RelDecision newest_report.
Proof. intros a b. unfold newest_report. apply _. Defined.

Global Instance newest_report_total : Total newest_report.
Proof. intros a b. unfold newest_report. lia. Qed.

Global Instance newest_report_trans : Transitive newest_report.
Proof. intros a b c. unfold newest_report. lia. Qed.

(** [Report.find({ patient: patientId })]. *)
Definition reports_of (patientId : string) (st : rdb) : list (string * report) :=
  filter (fun kr => rep_patient (snd kr) = patientId) (map_to_list (r_reports st)).

(** GET /api/reports/patient/:patientId *)
Definition listReports : handler := fun e f req st =>
  if patient_read_fails f then (RNextError, st)
  else
    match r_patients st !! r_param req with
    | None => (RJson 404 (RMessage false "Patient not found"), st)
    | Some doc =>
        match check_hospital req (patient_hospital doc) with
        | TypeError => (RNextError, st)
        | Denied => (RJson 403 (RMessage false "Access denied"), st)
        | Allowed =>
            if report_read_fails f then (RNextError, st)
            else
              let found := merge_sort newest_report (reports_of (r_param req) st) in
              (RJson 200 (RReports (length found) found), st)
        end
    end.

(** GET /api/reports/:id *)
Definition getReport : handler := fun e f req st =>
  if report_read_fails f then (RNextError, st)
  else
    match r_reports st !! r_param req with
    | None => (RJson 404 (RMessage false "Report not found"), st)
    | Some doc =>
        match check_hospital req (rep_hospital doc) with
        | TypeError => (RNextError, st)
        | Denied => (RJson 403 (RMessage false "Access denied"), st)
        | Allowed => (RJson 200 (RReport None (r_param req) doc), st)
        end
    end.

(** The assignments of PUT: [if (title) ...], [if (description !==
    undefined) ...], and so on. *)
Definition apply_update (e : renv) (b : reportBody) (doc : report) : report :=
  mkReport (rep_patient doc)
           (rep_hospital doc)
           (if present (b_title b) then text (b_title b) else rep_title doc)
           (match b_description b with Some d => d | None => rep_description doc end)
           (if present (b_reportType b) then text (b_reportType b) else rep_reportType doc)
           (if present (b_reportDate b)
            then castDate e (text (b_reportDate b)) else rep_reportDate doc)
           (match b_reportFileUrl b with Some u => u | None => rep_reportFileUrl doc end)
           (rep_createdBy doc).

(** PUT /api/reports/:id *)
Definition updateReport : handler := fun e f req st =>
  if report_read_fails f then (RNextError, st)
  else
    match r_reports st !! r_param req with
    | None => (RJson 404 (RMessage false "Report not found"), st)
    | Some doc =>
        match check_hospital req (rep_hospital doc) with
        | TypeError => (RNextError, st)
        | Denied => (RJson 403 (RMessage false "Access denied"), st)
        | Allowed =>
            let updated := apply_update e (r_body req) doc in
            if report_write_fails f then (RNextError, st)
            else
              let st' := with_reports st (<[r_param req := updated]> (r_reports st)) in
              if report_populate_fails f then (RNextError, st')
              else (RJson 200 (RReport (Some "Report updated successfully")
                                 (r_param req) updated), st')
        end
    end.

(** DELETE /api/reports/:id *)
Definition deleteReport : handler := fun e f req st =>
  if report_read_fails f then (RNextError, st)
  else
    match r_reports st !! r_param req with
    | None => (RJson 404 (RMessage false "Report not found"), st)
    | Some doc =>
        match check_hospital req (rep_hospital doc) with
        | TypeError => (RNextError, st)
        | Denied => (RJson 403 (RMessage false "Access denied"), st)
        | Allowed =>
            if report_write_fails f then (RNextError, st)
            else (RJson 200 (RMessage true "Report deleted successfully"),
                  with_reports st (delete (r_param req) (r_reports st)))
        end
    end.

(** The five routes as one step. *)
Inductive route : Type := Create | List | Get | Update | Delete.

Definition serve (r : route) : handler :=
  match r with
  | Create => createReport
  | List => listReports
  | Get => getReport
  | Update => updateReport
  | Delete => deleteReport
  end.

(** The routes that address a report by its id. *)
Definition by_report_id (r : route) : Prop :=
  match r with
  | Get | Update | Delete => True
  | _ => False
  end.

Definition is_403 (rep : rreply) : Prop :=
  ∃ message, rep = RJson 403 (RMessage false message).

(** Two versions of a report with the same patient, hospital and
    author. *)
Definition same_owner (a b : report) : Prop :=
  rep_patient a = rep_patient b ∧
  rep_hospital a = rep_hospital b ∧
  rep_createdBy a = rep_createdBy b.

(** The same user asking about another id, with an empty body. *)
Definition again (req : reportRequest) (param : string) : reportRequest :=
  mkRreq (r_userRole req) (r_userHospital req) (r_userId req) param
         (mkBody None None None None None None).

Definition not_found : rreply := RJson 404 (RMessage false "Report not found").

(** Sample data. *)
Definition bob : jsobj := [("fullName", JStr "Bob"); ("hospital", JStr "h1")].

Definition xray : report :=
  mkReport "p1" (Some "h1") "X-ray" "chest" "Imaging" 100 "x.png" "u1".

Definition blood : report :=
  mkReport "p1" (Some "h1") "Blood" EmptyString "Lab" 200 EmptyString "u1".

Definition stR : rdb :=
  mkRdb {[ "p1" := bob ]} {[ "a1" := xray; "a2" := blood ]}.

Definition env0 : renv := mkEnv 1000 (fun _ => 500) "a3".

Definition no_body : reportBody := mkBody None None None None None None.

Definition staff (hospitalId : string) (param : string) (b : reportBody)
  : reportRequest :=
  mkRreq "HOSPITAL_ADMIN" (Some hospitalId) "u1" param b.

End Reports.

(** ** The values and keys the model covers *)

Module Domain.
Import JS Store Client Dashboard.










End Domain.

(** ** Handler runs that interleave at their awaits *)

Module Interleaving.
Import JS Store Admin Engine.

Inductive decision : Type := Approving | Rejecting.

(** Where a run of the approve or reject handler stands: about to make
    one of its awaited store calls, or finished with a reply. *)
Inductive stage : Type :=
| FindingRequest
| FindingPatient (request : editRequest)
| SavingPatient (request : editRequest) (merged : jsobj)
| SavingRequest (request : editRequest) (sent : reply)
| Finished (sent : reply).

Record thread : Type := mkThread {
  t_decision : decision;
  t_faults : faults;
  t_req : expressRequest;
  t_stage : stage
}.

Definition at_stage (t : thread) (s : stage) : thread :=
  mkThread (t_decision t) (t_faults t) (t_req t) s.

(** [ensureSuperAdmin], then the handler up to its first await. *)
Definition start (d : decision) (f : faults) (req : expressRequest) : thread :=
  mkThread d f req
    (if negb (String.eqb (userRole req) "SUPER_ADMIN")
     then Finished ForbiddenError else FindingRequest).

(** The awaited store call the run is waiting for, and the code after it
    up to the next await.  Between two awaits nothing else runs. *)
Definition advance (t : thread) (st : db) : thread * db :=
  let f := t_faults t in
  let req := t_req t in
  match t_stage t with
  | FindingRequest =>
      if requests_read_fails f then (at_stage t (Finished NextError), st)
      else
        match requests st !! params_id req with
        | None => (at_stage t (Finished RequestNotFoundError), st)
        | Some request =>
            if negb (is_pending request)
            then (at_stage t (Finished AlreadyResolvedError), st)
            else
              match t_decision t with
              | Approving => (at_stage t (FindingPatient request), st)
              | Rejecting =>
                  (at_stage t (SavingRequest (with_status request REJECTED)
                                 (Json 200 (Message true "Request rejected"))), st)
              end
        end
  | FindingPatient request =>
      if patients_read_fails f then (at_stage t (Finished NextError), st)
      else
        match patients st !! patient request with
        | None => (at_stage t (Finished RecordNotFoundError), st)
        | Some doc =>
            (at_stage t (SavingPatient request
                           (Object_assign doc (requestedChanges request))), st)
        end
  | SavingPatient request merged =>
      if patients_write_fails f then (at_stage t (Finished NextError), st)
      else
        (at_stage t (SavingRequest (with_status request APPROVED)
                       (Json 200 (PatientUpdated
                                    "Request approved and patient updated" merged))),
         with_patients st (<[patient request := merged]> (patients st)))
  | SavingRequest request sent =>
      if requests_write_fails f then (at_stage t (Finished NextError), st)
      else
        (at_stage t (Finished sent),
         with_requests st (<[params_id req := request]> (requests st)))
  | Finished _ => (t, st)
  end.

(** A run on its own: its at most four awaits, one after the other. *)
Definition alone (t : thread) (st : db) : thread * db :=
  let a := advance t st in
  let b := advance (fst a) (snd a) in
  let c := advance (fst b) (snd b) in
  advance (fst c) (snd c).

Definition reply_of (t : thread) : option reply :=
  match t_stage t with
  | Finished sent => Some sent
  | _ => None
  end.

(** Several runs sharing the store; [turns] says whose await completes
    next.  The result is the runs at the end and the stores gone through. *)
Fixpoint interleave (turns : list nat) (threads : list thread) (st : db)
  : list thread * list db :=
  match turns with
  | [] => (threads, [st])
  | i :: rest =>
      match threads !! i with
      | Some t =>
          let moved := advance t st in
          let later := interleave rest (<[i := fst moved]> threads) (snd moved) in
          (fst later, st :: snd later)
      | None => interleave rest threads st
      end
  end.

(** An approve and a reject of the same request: both read the request
    while it is PENDING, then the approve runs to its end, then the
    reject saves. *)
Definition both_resolve : list thread * list db :=
  interleave [0; 1; 0; 0; 0; 1]%nat
    [start Approving no_faults (Scenarios.super_admin "r1");
     start Rejecting no_faults (Scenarios.super_admin "r1")]
    Scenarios.stB.

End Interleaving.

(** ** Properties of objects *)

Section ObjectFacts.
Import JS.

Lemma get_set_eq (o : jsobj) k v : get_prop (set_prop o k v) k = v.
Proof.
  induction o as [|[k' v'] o IH]; simpl.
  - by rewrite String.eqb_refl.
  - destruct (String.eqb k' k) eqn:E; simpl; rewrite E; auto.
Qed.

Lemma get_set_ne (o : jsobj) k k' v :
  k ≠ k' → get_prop (set_prop o k v) k' = get_prop o k'.
Proof.
  intros Hne. induction o as [|[k0 v0] o IH]; simpl.
  - destruct (String.eqb k k') eqn:E; [apply String.eqb_eq in E; done | done].
  - destruct (String.eqb k0 k) eqn:E; simpl.
    + apply String.eqb_eq in E. subst k0.
      destruct (String.eqb k k') eqn:E'; [apply String.eqb_eq in E'; done | done].
    + by rewrite IH.
Qed.

Lemma assign_cons (t : jsobj) kv (src : jsobj) :
  Object_assign t (kv :: src) = Object_assign (set_prop t (fst kv) (snd kv)) src.
Proof. reflexivity. Qed.

(** A property the source does not mention keeps its value. *)
Lemma assign_untouched (src t : jsobj) k :
  k ∉ src.*1 → get_prop (Object_assign t src) k = get_prop t k.
Proof.
  revert t. induction src as [|[k0 v0] src IH]; intros t Hk; [done|].
  rewrite assign_cons, IH; simpl in *.
  - apply get_set_ne. intros ->. apply Hk. left.
  - intros Hin. apply Hk. by right.
Qed.

(** A property the source mentions takes the source's value. *)
Lemma assign_copied (src t : jsobj) k v :
  wf_obj src → (k, v) ∈ src → get_prop (Object_assign t src) k = v.
Proof.
  unfold wf_obj. revert t.
  induction src as [|[k0 v0] src IH]; intros t Hnd Hin.
  - by apply not_elem_of_nil in Hin.
  - rewrite fmap_cons in Hnd. apply NoDup_cons in Hnd as [Hfresh Hnd].
    rewrite assign_cons. apply elem_of_cons in Hin as [Heq | Hin].
    + inversion Heq; subst. simpl in *.
      rewrite assign_untouched by done. apply get_set_eq.
    + by apply IH.
Qed.

Lemma get_prop_elem (o : jsobj) k v : wf_obj o → (k, v) ∈ o → get_prop o k = v.
Proof.
  unfold wf_obj. induction o as [|[k0 v0] o IH]; intros Hnd Hin.
  - by apply not_elem_of_nil in Hin.
  - rewrite fmap_cons in Hnd. apply NoDup_cons in Hnd as [Hfresh Hnd].
    simpl in *. apply elem_of_cons in Hin as [Heq | Hin].
    + inversion Heq; subst. by rewrite String.eqb_refl.
    + destruct (String.eqb k0 k) eqn:E; [| by apply IH].
      apply String.eqb_eq in E. subst k0. exfalso. apply Hfresh.
      apply list_elem_of_fmap. by exists (k, v).
Qed.

End ObjectFacts.

(** ** The handlers, case by case *)

Section HandlerFacts.
Import JS Store Admin.

Lemma is_super_admin_iff req : is_super_admin req = true ↔ userRole req = "SUPER_ADMIN".
Proof. apply String.eqb_eq. Qed.

(** [approve] written out as the decision tree of its early returns. *)
Lemma approve_unfold f req st :
  approve f req st =
  if negb (is_super_admin req) then (ForbiddenError, st)
  else if requests_read_fails f then (NextError, st)
  else match requests st !! params_id req with
  | None => (RequestNotFoundError, st)
  | Some request =>
    if negb (is_pending request) then (AlreadyResolvedError, st)
    else if patients_read_fails f then (NextError, st)
    else match patients st !! patient request with
    | None => (RecordNotFoundError, st)
    | Some doc =>
      if patients_write_fails f then (NextError, st)
      else if requests_write_fails f then (NextError, record_saved st request doc)
      else (Json 200 (PatientUpdated "Request approved and patient updated"
                        (Object_assign doc (requestedChanges request))),
            request_resolved (record_saved st request doc) (params_id req) request APPROVED)
    end
  end.
Proof.
  unfold approve, ensureSuperAdmin, is_super_admin.
  destruct (negb _); [done|].
  unfold try_catch, bind, PatientEditRequest_findById, awaiting, throw.
  destruct (requests_read_fails f); [done|].
  destruct (requests st !! params_id req) as [request|]; [|done].
  unfold return_if. destruct (negb (is_pending request)); [done|]. cbn.
  unfold Patient_findById, awaiting, throw.
  destruct (patients_read_fails f); [done|].
  destruct (patients st !! patient request) as [doc|]; [|done].
  unfold bind, patient_save, request_save, awaiting, throw.
  destruct (patients_write_fails f); [done|].
  destruct (requests_write_fails f); done.
Qed.

Lemma reject_unfold f req st :
  reject f req st =
  if negb (is_super_admin req) then (ForbiddenError, st)
  else if requests_read_fails f then (NextError, st)
  else match requests st !! params_id req with
  | None => (RequestNotFoundError, st)
  | Some request =>
    if negb (is_pending request) then (AlreadyResolvedError, st)
    else if requests_write_fails f then (NextError, st)
    else (Json 200 (Message true "Request rejected"),
          request_resolved st (params_id req) request REJECTED)
  end.
Proof.
  unfold reject, ensureSuperAdmin, is_super_admin.
  destruct (negb _); [done|].
  unfold try_catch, bind, PatientEditRequest_findById, awaiting, throw.
  destruct (requests_read_fails f); [done|].
  destruct (requests st !! params_id req) as [request|]; [|done].
  unfold return_if. destruct (negb (is_pending request)); [done|]. cbn.
  unfold request_save, awaiting, throw.
  destruct (requests_write_fails f); done.
Qed.

Lemma getRequests_unfold f req st :
  getRequests f req st =
  if negb (is_super_admin req) then (ForbiddenError, st)
  else if requests_read_fails f then (NextError, st)
  else let found := merge_sort newest_first (populate st <$> find_pending st) in
       (Json 200 (RequestList (length found) found), st).
Proof.
  unfold getRequests, ensureSuperAdmin, is_super_admin.
  destruct (negb _); [done|].
  unfold try_catch, bind, PatientEditRequest_find_pending, awaiting, throw.
  destruct (requests_read_fails f); done.
Qed.

Lemma getRequestsCount_unfold f req st :
  getRequestsCount f req st =
  if negb (is_super_admin req) then (ForbiddenError, st)
  else if requests_read_fails f then (NextError, st)
  else (Json 200 (PendingCount (length (find_pending st))), st).
Proof.
  unfold getRequestsCount, ensureSuperAdmin, is_super_admin.
  destruct (negb _); [done|].
  unfold try_catch, bind, PatientEditRequest_count_pending, awaiting, throw.
  destruct (requests_read_fails f); done.
Qed.

Lemma is_pending_true r : is_pending r = true ↔ status_of r = PENDING.
Proof. unfold is_pending. apply bool_decide_eq_true. Qed.

Lemma is_pending_false r : is_pending r = false ↔ status_of r ≠ PENDING.
Proof. unfold is_pending. apply bool_decide_eq_false. Qed.

End HandlerFacts.

(** ** The life of a request *)

Section Lifecycle.
Import JS Store Admin Engine.

Lemma status_in_resolved st id0 r s id :
  status_in id (request_resolved st id0 r s) =
  if decide (id0 = id) then Some s else status_in id st.
Proof.
  unfold status_in, request_resolved. simpl.
  rewrite lookup_insert. by destruct (decide (id0 = id)).
Qed.

Lemma status_in_record_saved st r doc id :
  status_in id (record_saved st r doc) = status_in id st.
Proof. reflexivity. Qed.

(** One call moves a status nowhere, or from PENDING to a terminal one. *)
Lemma step_status c st id :
  status_in id (snd (step c st)) = status_in id st ∨
  (status_in id st = Some PENDING ∧
   (status_in id (snd (step c st)) = Some APPROVED ∨
    status_in id (snd (step c st)) = Some REJECTED)).
Proof.
  destruct c as [f req|f req|f req|f req]; simpl.
  - rewrite getRequests_unfold. repeat case_match; auto.
  - rewrite getRequestsCount_unfold. repeat case_match; auto.
  - rewrite approve_unfold.
    destruct (negb (is_super_admin req)); [auto|].
    destruct (requests_read_fails f); [auto|].
    destruct (requests st !! params_id req) as [r|] eqn:Hr; [|auto].
    destruct (is_pending r) eqn:Hp; simpl; [|auto].
    destruct (patients_read_fails f); [auto|].
    destruct (patients st !! patient r) as [doc|]; [|auto].
    destruct (patients_write_fails f); [auto|].
    destruct (requests_write_fails f); simpl; [auto|].
    rewrite status_in_resolved, status_in_record_saved.
    destruct (decide (params_id req = id)) as [<-|]; [right|auto].
    apply is_pending_true in Hp. unfold status_in. rewrite Hr. simpl.
    rewrite Hp. auto.
  - rewrite reject_unfold.
    destruct (negb (is_super_admin req)); [auto|].
    destruct (requests_read_fails f); [auto|].
    destruct (requests st !! params_id req) as [r|] eqn:Hr; [|auto].
    destruct (is_pending r) eqn:Hp; simpl; [|auto].
    destruct (requests_write_fails f); simpl; [auto|].
    rewrite status_in_resolved.
    destruct (decide (params_id req = id)) as [<-|]; [right|auto].
    apply is_pending_true in Hp. unfold status_in. rewrite Hr. simpl.
    rewrite Hp. auto.
Qed.

Lemma run_head st calls : ∃ rest, run st calls = st :: rest.
Proof. destruct calls; simpl; eauto. Qed.

Lemma transitions_cons a st id calls :
  transitions (a :: map (status_in id) (run st calls)) =
  ((if decide (a = status_in id st) then 0 else 1)
   + transitions (map (status_in id) (run st calls)))%nat.
Proof. destruct (run_head st calls) as [rest ->]. reflexivity. Qed.

(** A status other than PENDING never moves again. *)
Lemma settled_forever calls : ∀ st id,
  status_in id st ≠ Some PENDING →
  transitions (map (status_in id) (run st calls)) = 0%nat.
Proof.
  induction calls as [|c calls IH]; intros st id Hs; [done|].
  simpl run. rewrite map_cons, transitions_cons.
  destruct (step_status c st id) as [Heq | [Hp _]]; [|done].
  rewrite IH by congruence.
  rewrite decide_True by done. reflexivity.
Qed.

(** ... and is the same in every later store. *)
Lemma settled_in_run calls : ∀ st st' id s,
  status_in id st = Some s →
  s ≠ PENDING →
  st' ∈ run st calls →
  status_in id st' = Some s.
Proof.
  induction calls as [|c calls IH]; intros st st' id s Hs Hne Hin; simpl in Hin.
  - by apply list_elem_of_singleton in Hin as ->.
  - apply elem_of_cons in Hin as [-> | Hin]; [done|].
    apply (IH (snd (step c st))); [|done..].
    destruct (step_status c st id) as [-> | [Hp _]]; [done | congruence].
Qed.

Lemma at_most_one_transition calls : ∀ st id,
  (transitions (map (status_in id) (run st calls)) ≤ 1)%nat.
Proof.
  induction calls as [|c calls IH]; intros st id; [simpl; lia|].
  simpl run. rewrite map_cons, transitions_cons.
  destruct (step_status c st id) as [Heq | [Hp Hq]].
  - rewrite decide_True by done. apply IH.
  - rewrite settled_forever by (destruct Hq as [-> | ->]; discriminate).
    case_decide; lia.
Qed.

End Lifecycle.

(** ** Authorization *)

Section Authorization.
Import JS Store Admin Engine Scenarios.

Lemma not_super_admin req : userRole req ≠ "SUPER_ADMIN" → negb (is_super_admin req) = true.
Proof.
  intros H. apply negb_true_iff. unfold is_super_admin.
  destruct (String.eqb _ _) eqn:E; [|done]. by apply String.eqb_eq in E.
Qed.

(** C5.  An actor whose role is not SUPER_ADMIN gets the 403 reply from
    each of the four endpoints (list, count, approve, reject), and the
    store after the call is the store before it. *)
Theorem scoped_actor_forbidden f req st :
  userRole req ≠ "SUPER_ADMIN" →
  getRequests f req st = (ForbiddenError, st) ∧
  getRequestsCount f req st = (ForbiddenError, st) ∧
  approve f req st = (ForbiddenError, st) ∧
  reject f req st = (ForbiddenError, st).
Proof.
  intros H%not_super_admin.
  rewrite getRequests_unfold, getRequestsCount_unfold, approve_unfold, reject_unfold.
  by rewrite H.
Qed.

Lemma scoped_actor_forbidden_witness :
  getRequests no_faults (hospital_admin "r1") stB = (ForbiddenError, stB) ∧
  getRequestsCount no_faults (hospital_admin "r1") stB = (ForbiddenError, stB) ∧
  approve no_faults (hospital_admin "r1") stB = (ForbiddenError, stB) ∧
  reject no_faults (hospital_admin "r1") stB = (ForbiddenError, stB).
Proof. apply scoped_actor_forbidden. simpl. discriminate. Defined.

End Authorization.

(** ** Resolution *)

Section Resolution.
Import JS Store Admin Engine Scenarios.

(** C6.  Approving a PENDING request whose patient is no longer in the
    store replies 404 "Patient not found" and leaves the whole store as
    it was; in particular the request is still there and still PENDING. *)
Theorem approve_missing_record f req st r :
  userRole req = "SUPER_ADMIN" →
  requests_read_fails f = false →
  patients_read_fails f = false →
  requests st !! params_id req = Some r →
  status_of r = PENDING →
  patients st !! patient r = None →
  approve f req st = (RecordNotFoundError, st) ∧
  status_in (params_id req) (snd (approve f req st)) = Some PENDING.
Proof.
  intros Hrole%is_super_admin_iff Hf1 Hf2 Hr Hs%is_pending_true Hp.
  rewrite approve_unfold, Hrole, Hf1, Hr, Hs, Hf2, Hp. simpl.
  split; [done|]. unfold status_in. rewrite Hr. simpl.
  by apply is_pending_true in Hs as ->.
Qed.

Lemma approve_missing_record_witness :
  approve no_faults (super_admin "r1") stOrphan = (RecordNotFoundError, stOrphan) ∧
  status_in "r1" (snd (approve no_faults (super_admin "r1") stOrphan)) = Some PENDING.
Proof.
  apply (approve_missing_record no_faults (super_admin "r1") stOrphan
           (mkRequest "p1" "h1" phone_change PENDING 10)); reflexivity.
Defined.

(** A resolved request turns every approve and reject away. *)
Lemma resolved_is_final f req st r :
  requests st !! params_id req = Some r →
  status_of r ≠ PENDING →
  snd (approve f req st) = st ∧
  snd (reject f req st) = st ∧
  (userRole req = "SUPER_ADMIN" → requests_read_fails f = false →
   fst (approve f req st) = AlreadyResolvedError ∧
   fst (reject f req st) = AlreadyResolvedError).
Proof.
  intros Hr Hs%is_pending_false.
  rewrite approve_unfold, reject_unfold, Hr, Hs. simpl.
  split; [repeat case_match; done|].
  split; [repeat case_match; done|].
  intros Hrole%is_super_admin_iff ->. by rewrite Hrole.
Qed.

(** ... and so does it after any further calls. *)
Lemma resolved_is_final_later calls f req st st' r :
  requests st !! params_id req = Some r →
  status_of r ≠ PENDING →
  st' ∈ run st calls →
  snd (approve f req st') = st' ∧
  snd (reject f req st') = st' ∧
  (userRole req = "SUPER_ADMIN" → requests_read_fails f = false →
   fst (approve f req st') = AlreadyResolvedError ∧
   fst (reject f req st') = AlreadyResolvedError).
Proof.
  intros Hr Hs Hin.
  assert (status_in (params_id req) st' = Some (status_of r)) as Hlater.
  { apply (settled_in_run calls st); [|done..]. unfold status_in. by rewrite Hr. }
  unfold status_in in Hlater.
  destruct (requests st' !! params_id req) as [r'|] eqn:Hr'; [|done].
  injection Hlater as Hlater.
  apply (resolved_is_final f req st' r'); [done | congruence].
Qed.

(** A successful approve or reject leaves the request resolved. *)
Lemma resolve_settles c b st id :
  resolves id c →
  fst (step c st) = Json 200 b →
  ∃ r', requests (snd (step c st)) !! id = Some r' ∧ status_of r' ≠ PENDING.
Proof.
  intros Hc Hb.
  destruct c as [f0 req0|f0 req0|f0 req0|f0 req0]; simpl in *; try done; subst id.
  - rewrite approve_unfold in *.
    repeat (case_match; simpl in *; try discriminate).
    eexists. split; [apply lookup_insert_eq | done].
  - rewrite reject_unfold in *.
    repeat (case_match; simpl in *; try discriminate).
    eexists. split; [apply lookup_insert_eq | done].
Qed.

(** C3, for calls served one after another.  Along every sequence of
    calls the status of a request changes at most once.  Once a request is no longer PENDING, every approve and
    every reject of it, now or after any further calls, leaves the whole
    store as it is (no merge, no status write) and tells the authorized
    caller 400 "Request is already processed"; and that is the situation
    after every successful approve or reject. *)
Theorem status_transitions_at_most_once st id :
  (∀ calls, (transitions (map (status_in id) (run st calls)) ≤ 1)%nat) ∧
  (∀ r calls st' f req,
     requests st !! id = Some r →
     status_of r ≠ PENDING →
     st' ∈ run st calls →
     params_id req = id →
     snd (approve f req st') = st' ∧
     snd (reject f req st') = st' ∧
     (userRole req = "SUPER_ADMIN" → requests_read_fails f = false →
      fst (approve f req st') = AlreadyResolvedError ∧
      fst (reject f req st') = AlreadyResolvedError)) ∧
  (∀ c b calls st' f req,
     resolves id c →
     fst (step c st) = Json 200 b →
     st' ∈ run (snd (step c st)) calls →
     params_id req = id →
     userRole req = "SUPER_ADMIN" →
     requests_read_fails f = false →
     approve f req st' = (AlreadyResolvedError, st') ∧
     reject f req st' = (AlreadyResolvedError, st')).
Proof.
  split; [intros; apply at_most_one_transition|]. split.
  - intros r calls st' f req Hr Hs Hin <-.
    by apply (resolved_is_final_later calls f req st st' r).
  - intros c b calls st' f req Hc Hb Hin <- Hrole Hf.
    destruct (resolve_settles c b st _ Hc Hb) as (r' & Hr' & Hs').
    destruct (resolved_is_final_later calls f req _ st' r' Hr' Hs' Hin)
      as (Ha & Hj & Hreply).
    destruct (Hreply Hrole Hf) as [Hra Hrj].
    split; apply injective_projections; done.
Qed.

Lemma status_transitions_at_most_once_witness :
  (snd (approve no_faults (super_admin "r1") stResolved) = stResolved ∧
   snd (reject no_faults (super_admin "r1") stResolved) = stResolved ∧
   fst (approve no_faults (super_admin "r1") stResolved) = AlreadyResolvedError ∧
   fst (reject no_faults (super_admin "r1") stResolved) = AlreadyResolvedError) ∧
  (approve no_faults (super_admin "r1")
     (snd (step (CallReject no_faults (super_admin "r1")) stB))
   = (AlreadyResolvedError, snd (step (CallReject no_faults (super_admin "r1")) stB))).
Proof.
  split.
  - destruct (status_transitions_at_most_once stResolved "r1") as (_ & H & _).
    destruct (H (mkRequest "p1" "h1" phone_change APPROVED 10) [] stResolved
                no_faults (super_admin "r1")) as (Ha & Hj & Hr);
      [reflexivity | discriminate | left | reflexivity |].
    destruct Hr as [Hra Hrj]; [reflexivity | reflexivity |]. auto.
  - destruct (status_transitions_at_most_once stB "r1") as (_ & _ & H).
    apply (H (CallReject no_faults (super_admin "r1")) (Message true "Request rejected")
             [] _ no_faults (super_admin "r1")); try reflexivity.
    left.
Defined.

End Resolution.

(** ** What approve does to the record *)

Section Merge.
Import JS Store Admin Engine Scenarios.

(** With every store call succeeding, approve of a PENDING request with
    an existing patient runs to the end. *)
Lemma approve_success req st r doc :
  userRole req = "SUPER_ADMIN" →
  requests st !! params_id req = Some r →
  status_of r = PENDING →
  patients st !! patient r = Some doc →
  approve no_faults req st =
  (Json 200 (PatientUpdated "Request approved and patient updated"
               (Object_assign doc (requestedChanges r))),
   request_resolved (record_saved st r doc) (params_id req) r APPROVED).
Proof.
  intros Hrole%is_super_admin_iff Hr Hs%is_pending_true Hp.
  by rewrite approve_unfold, Hrole, Hr, Hs, Hp.
Qed.

Lemma saved_record_lookup st r doc id s :
  patients (request_resolved (record_saved st r doc) id r s) !! patient r =
  Some (Object_assign doc (requestedChanges r)).
Proof. simpl. apply lookup_insert_eq. Qed.

(** Scenario B on the code: the e-mail address is gone after approve. *)
Lemma approve_drops_unmentioned_subkeys :
  patients (snd (approve no_faults (super_admin "r1") stB)) !! "p1" = Some alice_after ∧
  ¬ shallow_merged alice phone_change alice_after.
Proof.
  split; [reflexivity|].
  intros H. specialize (H "contact" [("phone", JStr "222")] "email").
  simpl in H. discriminate H. left.
Qed.

(** C1, as the code has it.  After a successful approve the record's
    nested field is the proposed sub-mapping itself: a mentioned sub-key
    reads as the proposed value, any other sub-key reads as the proposed
    sub-mapping has it (undefined when it is not mentioned), and the
    top-level fields the payload does not name keep their values. *)
Theorem approve_replaces_nested_field req st r doc :
  userRole req = "SUPER_ADMIN" →
  requests st !! params_id req = Some r →
  status_of r = PENDING →
  patients st !! patient r = Some doc →
  wf_obj (requestedChanges r) →
  ∃ doc',
    fst (approve no_faults req st) =
      Json 200 (PatientUpdated "Request approved and patient updated" doc') ∧
    patients (snd (approve no_faults req st)) !! patient r = Some doc' ∧
    (∀ key sub, (key, JObj sub) ∈ requestedChanges r →
       get_prop doc' key = JObj sub ∧
       ∀ sk, get_member (get_prop doc' key) sk = get_prop sub sk) ∧
    (∀ key, key ∉ (requestedChanges r).*1 → get_prop doc' key = get_prop doc key).
Proof.
  intros Hrole Hr Hs Hp Hwf.
  rewrite (approve_success req st r doc) by done.
  eexists. split; [reflexivity|]. split; [apply saved_record_lookup|]. split.
  - intros key sub Hin.
    assert (get_prop (Object_assign doc (requestedChanges r)) key = JObj sub) as ->
      by by apply assign_copied.
    done.
  - intros key Hkey. by apply assign_untouched.
Qed.

Lemma approve_replaces_nested_field_witness :
  ∃ doc',
    fst (approve no_faults (super_admin "r1") stB) =
      Json 200 (PatientUpdated "Request approved and patient updated" doc') ∧
    patients (snd (approve no_faults (super_admin "r1") stB)) !! "p1" = Some doc' ∧
    (∀ key sub, (key, JObj sub) ∈ phone_change →
       get_prop doc' key = JObj sub ∧
       ∀ sk, get_member (get_prop doc' key) sk = get_prop sub sk) ∧
    (∀ key, key ∉ phone_change.*1 → get_prop doc' key = get_prop alice key).
Proof.
  apply (approve_replaces_nested_field (super_admin "r1") stB
           (mkRequest "p1" "h1" phone_change PENDING 10) alice);
    try reflexivity.
  apply (bool_decide_unpack _). vm_compute. exact I.
Defined.

(** A crafted payload moves a patient to another hospital. *)
Lemma approve_alters_ownership :
  patients (snd (approve no_faults (super_admin "r1") stOwner)) !! "p1"
    = Some [("fullName", JStr "Bob"); ("hospital", JStr "h2")] ∧
  ¬ rejects_ineligible ownership_protected no_faults (super_admin "r1") stOwner.
Proof.
  split; [reflexivity|].
  intros H.
  destruct (H (mkRequest "p1" "h2" takeover PENDING 10) "hospital") as [Hnot _];
    [reflexivity | left | reflexivity |].
  apply Hnot. eexists. reflexivity.
Qed.

(** C2, as the code has it.  Approve checks no key against any schema:
    whenever it replies with success, the request is APPROVED and,
    whatever set of editable fields one has in mind, a payload key outside
    it that is not a member inherited from [Object.prototype] has been
    assigned onto the stored record like every other key. *)
Theorem approve_copies_every_key (editable : string → bool) f req st b r doc key v :
  fst (approve f req st) = Json 200 b →
  requests st !! params_id req = Some r →
  patients st !! patient r = Some doc →
  wf_obj (requestedChanges r) →
  (key, v) ∈ requestedChanges r →
  key ∉ Dashboard.Object_prototype_names →
  editable key = false →
  status_in (params_id req) (snd (approve f req st)) = Some APPROVED ∧
  ∃ doc',
    patients (snd (approve f req st)) !! patient r = Some doc' ∧
    get_prop doc' key = v.
Proof.
  intros Hok Hr Hp Hwf Hin _ _. revert Hok.
  rewrite approve_unfold, Hr, Hp.
  destruct (negb (is_super_admin req)); [done|].
  destruct (requests_read_fails f); [done|].
  destruct (negb (is_pending r)); [done|].
  destruct (patients_read_fails f); [done|].
  destruct (patients_write_fails f); [done|].
  destruct (requests_write_fails f); [done|]. intros _. simpl. split.
  - rewrite status_in_resolved. by rewrite decide_True.
  - eexists. split; [|by apply assign_copied].
    apply (saved_record_lookup st r doc (params_id req) APPROVED).
Qed.

Lemma approve_copies_every_key_witness :
  status_in "r1" (snd (approve no_faults (super_admin "r1") stOwner)) = Some APPROVED ∧
  ∃ doc',
    patients (snd (approve no_faults (super_admin "r1") stOwner)) !! "p1" = Some doc' ∧
    get_prop doc' "hospital" = JStr "h2".
Proof.
  apply (approve_copies_every_key ownership_protected no_faults (super_admin "r1") stOwner
           (PatientUpdated "Request approved and patient updated"
              [("fullName", JStr "Bob"); ("hospital", JStr "h2")])
           (mkRequest "p1" "h2" takeover PENDING 10) owned "hospital" (JStr "h2"));
    try reflexivity.
  - apply (bool_decide_unpack _). vm_compute. exact I.
  - left.
  - apply (bool_decide_unpack _). vm_compute. exact I.
Defined.

(** The status save fails: the record is already changed, the request
    is still PENDING. *)
Lemma approve_not_atomic :
  fst (approve status_save_fails (super_admin "r1") stB) = NextError ∧
  patients (snd (approve status_save_fails (super_admin "r1") stB)) !! "p1"
    = Some alice_after ∧
  status_in "r1" (snd (approve status_save_fails (super_admin "r1") stB))
    = Some PENDING ∧
  ¬ approve_atomic status_save_fails (super_admin "r1") stB.
Proof.
  do 3 (split; [reflexivity|]).
  intros [(r & doc & Hr & Hd & Heq) | Heq].
  - apply (f_equal (status_in "r1")) in Heq.
    rewrite status_in_resolved in Heq.
    vm_compute in Heq. discriminate Heq.
  - apply (f_equal (λ s, patients s !! "p1")) in Heq.
    vm_compute in Heq. discriminate Heq.
Qed.

(** C4, as the code has it.  Approve ends in one of three ways: the full
    sequence (record merged and saved, request APPROVED) with the success
    reply; an error with the store untouched; or, when the record save
    succeeds and the status save then fails, the forwarded error with the
    record already merged and the request still PENDING. *)
Theorem approve_outcomes f req st :
  (is_approved_reply (fst (approve f req st)) ∧
   approve_completed req st (snd (approve f req st))) ∨
  (¬ is_approved_reply (fst (approve f req st)) ∧
   snd (approve f req st) = st) ∨
  (fst (approve f req st) = NextError ∧
   patients_write_fails f = false ∧
   requests_write_fails f = true ∧
   ∃ r doc,
     requests st !! params_id req = Some r ∧
     status_of r = PENDING ∧
     patients st !! patient r = Some doc ∧
     snd (approve f req st) = record_saved st r doc).
Proof.
  assert (∀ m, ¬ is_approved_reply (Json 400 m)) as H400 by (intros m [d Hd]; discriminate).
  assert (∀ m, ¬ is_approved_reply (Json 403 m)) as H403 by (intros m [d Hd]; discriminate).
  assert (∀ m, ¬ is_approved_reply (Json 404 m)) as H404 by (intros m [d Hd]; discriminate).
  assert (¬ is_approved_reply NextError) as Herr by (intros [d Hd]; discriminate).
  rewrite approve_unfold.
  destruct (negb (is_super_admin req)); [right; left; split; [apply H403 | done]|].
  destruct (requests_read_fails f); [right; left; done|].
  destruct (requests st !! params_id req) as [r|] eqn:Hr;
    [|right; left; split; [apply H404 | done]].
  destruct (is_pending r) eqn:Hp; simpl; [|right; left; split; [apply H400 | done]].
  destruct (patients_read_fails f); [right; left; done|].
  destruct (patients st !! patient r) as [doc|] eqn:Hd;
    [|right; left; split; [apply H404 | done]].
  destruct (patients_write_fails f); [right; left; done|].
  destruct (requests_write_fails f); simpl.
  - right; right. repeat split; try done.
    exists r, doc. by apply is_pending_true in Hp.
  - left. split; [by eexists|]. by exists r, doc.
Qed.

End Merge.

(** ** Listing and counting *)

Section Queue.
Import JS Store Admin Client Engine Scenarios.





(** What the page holds after a successful load. *)
Lemma listPending_unfold f req st :
  userRole req = "SUPER_ADMIN" →
  requests_read_fails f = false →
  listPending f req st =
  filter (fun pr => is_Some (req_patient pr))
         (merge_sort newest_first (populate st <$> find_pending st)).
Proof.
  intros Hrole%is_super_admin_iff Hf. unfold listPending.
  by rewrite getRequests_unfold, Hrole, Hf.
Qed.



(** Scenario E on the code: two entries, newest first. *)
Example scenario_E :
  req_id <$> listPending no_faults (super_admin "r1") stE = ["r3"; "r1"].
Proof. reflexivity. Qed.

Lemma find_pending_size st :
  length (find_pending st) =
  size (filter (fun kr => status_of (snd kr) = PENDING) (requests st)).
Proof.
  unfold find_pending. rewrite <- length_map_to_list.
  apply Permutation_length, NoDup_Permutation.
  - apply NoDup_filter, NoDup_map_to_list.
  - apply NoDup_map_to_list.
  - intros [id r].
    rewrite list_elem_of_filter, !elem_of_map_to_list, map_lookup_filter_Some.
    simpl. rewrite is_pending_true. tauto.
Qed.

(** C8.  For a SUPER_ADMIN, the count endpoint replies with the number
    of PENDING requests in the store; that is the length of the list the
    listing endpoint sends, before the page drops the requests whose
    patient is gone, so the page never holds more entries than the count
    says, and it holds fewer in some store. *)
Theorem countPending_is_raw_count f req st :
  userRole req = "SUPER_ADMIN" →
  requests_read_fails f = false →
  ∃ n sent,
    countPending f req st = Json 200 (PendingCount n) ∧
    n = size (filter (fun kr => status_of (snd kr) = PENDING) (requests st)) ∧
    fst (getRequests f req st) = Json 200 (RequestList n sent) ∧
    length sent = n ∧
    listPending f req st = filter (fun pr => is_Some (req_patient pr)) sent ∧
    (length (listPending f req st) ≤ n)%nat ∧
    (length (listPending no_faults (super_admin "r1") stE)
       < size (filter (fun kr => status_of (snd kr) = PENDING) (requests stE)))%nat.
Proof.
  intros Hrole Hf.
  exists (length (find_pending st)),
         (merge_sort newest_first (populate st <$> find_pending st)).
  assert (length (merge_sort newest_first (populate st <$> find_pending st))
          = length (find_pending st)) as Hlen.
  { rewrite merge_sort_Permutation. apply length_fmap. }
  rewrite listPending_unfold by done.
  apply is_super_admin_iff in Hrole.
  unfold countPending.
  rewrite getRequestsCount_unfold, getRequests_unfold, Hrole, Hf. simpl.
  rewrite Hlen. repeat split; try done.
  - apply find_pending_size.
  - rewrite <- Hlen. apply length_filter.
  - vm_compute. lia.
Qed.

Lemma countPending_is_raw_count_witness :
  ∃ n sent,
    countPending no_faults (super_admin "r1") stE = Json 200 (PendingCount n) ∧
    n = size (filter (fun kr => status_of (snd kr) = PENDING) (requests stE)) ∧
    fst (getRequests no_faults (super_admin "r1") stE) = Json 200 (RequestList n sent) ∧
    length sent = n ∧
    listPending no_faults (super_admin "r1") stE
      = filter (fun pr => is_Some (req_patient pr)) sent ∧
    (length (listPending no_faults (super_admin "r1") stE) ≤ n)%nat ∧
    (length (listPending no_faults (super_admin "r1") stE)
       < size (filter (fun kr => status_of (snd kr) = PENDING) (requests stE)))%nat.
Proof. apply countPending_is_raw_count; reflexivity. Defined.

End Queue.

(** ** The rendered diff *)

Section Diff.
Import JS Store Client Scenarios.

Lemma strict_equal_primitive a b :
  (∀ o, b ≠ JObj o) → strict_equal a b = true ↔ a = b.
Proof.
  intros Hb. destruct a, b; simpl;
    rewrite ?Bool.eqb_true_iff, ?Z.eqb_eq, ?String.eqb_eq;
    split; congruence.
Qed.

Lemma same_json_spec a b : same_json a b = true ↔ a = b.
Proof.
  destruct a, b; simpl; try (split; [discriminate | congruence]); try done.
  rewrite String.eqb_eq. split; congruence.
Qed.

Lemma JSON_stringify_defined v : v ≠ JUndefined → ∃ s, JSON_stringify v = Some s.
Proof. destruct v as [| |[]| | |]; simpl; eauto. done. Qed.


(** Under an existing nested object, a sub-field is skipped exactly when
    old and new sub-value serialise alike. *)
Lemma sub_change_skipped_iff o sk new :
  formatSubChange (JObj o) (sk, new) = None ↔
  JSON_stringify (get_prop o sk) = JSON_stringify new.
Proof.
  unfold formatSubChange. simpl. rewrite <- same_json_spec.
  by destruct (same_json _ _).
Qed.

(** C9 at the failing input.  The patient has no emergency contact and
    the proposal sets its name to the text N/A: the old sub-value is
    absent, the new one is a string, and yet no row is rendered for it. *)
Theorem formatChanges_hides_NA_proposal :
  get_member (get_prop (default [] (req_patient na_request)) "emergencyContact") "name"
    = JUndefined ∧
  get_member (get_prop (req_requestedChanges na_request) "emergencyContact") "name"
    = JStr "N/A" ∧
  formatChanges na_request = [Some (NestedChange "emergencyContact" [None])].
Proof. repeat split. Qed.




End Diff.

(** ** What the routes leave alone *)

Section FrameFacts.
Import JS Store Admin Engine Frame Scenarios.

Lemma same_but_status_refl r : same_but_status r r.
Proof. by repeat split. Qed.

Lemma same_but_status_with r s : same_but_status r (with_status r s).
Proof. by repeat split. Qed.

Lemma same_but_status_trans r1 r2 r3 :
  same_but_status r1 r2 → same_but_status r2 r3 → same_but_status r1 r3.
Proof. unfold same_but_status. intuition congruence. Qed.

(** One call rewrites at most the status of a request. *)
Lemma step_requests c st id :
  requests (snd (step c st)) !! id = requests st !! id ∨
  ∃ r s, requests st !! id = Some r ∧
         requests (snd (step c st)) !! id = Some (with_status r s).
Proof.
  destruct c as [f req|f req|f req|f req]; simpl.
  - rewrite getRequests_unfold. repeat case_match; auto.
  - rewrite getRequestsCount_unfold. repeat case_match; auto.
  - rewrite approve_unfold.
    destruct (negb (is_super_admin req)); [auto|].
    destruct (requests_read_fails f); [auto|].
    destruct (requests st !! params_id req) as [r|] eqn:Hr; [|auto].
    destruct (negb (is_pending r)); [auto|].
    destruct (patients_read_fails f); [auto|].
    destruct (patients st !! patient r) as [doc|]; [|auto].
    destruct (patients_write_fails f); [auto|].
    destruct (requests_write_fails f); simpl; [auto|].
    destruct (decide (params_id req = id)) as [<-|Hne].
    + right. exists r, APPROVED. by rewrite lookup_insert_eq.
    + left. by rewrite lookup_insert_ne.
  - rewrite reject_unfold.
    destruct (negb (is_super_admin req)); [auto|].
    destruct (requests_read_fails f); [auto|].
    destruct (requests st !! params_id req) as [r|] eqn:Hr; [|auto].
    destruct (negb (is_pending r)); [auto|].
    destruct (requests_write_fails f); simpl; [auto|].
    destruct (decide (params_id req = id)) as [<-|Hne].
    + right. exists r, REJECTED. by rewrite lookup_insert_eq.
    + left. by rewrite lookup_insert_ne.
Qed.

Lemma step_hospitals c st : hospitals (snd (step c st)) = hospitals st.
Proof.
  destruct c as [f req|f req|f req|f req]; simpl;
    rewrite ?getRequests_unfold, ?getRequestsCount_unfold, ?approve_unfold,
            ?reject_unfold;
    repeat case_match; done.
Qed.

(** X1.  Approving or rejecting an id that is not in the store replies
    404 "Request not found" and changes nothing. *)
Theorem resolve_unknown_request f req st :
  userRole req = "SUPER_ADMIN" →
  requests_read_fails f = false →
  requests st !! params_id req = None →
  approve f req st = (RequestNotFoundError, st) ∧
  reject f req st = (RequestNotFoundError, st).
Proof.
  intros Hrole%is_super_admin_iff Hf Hr.
  by rewrite approve_unfold, reject_unfold, Hrole, Hf, Hr.
Qed.

Lemma resolve_unknown_request_witness :
  approve no_faults (super_admin "r9") stB = (RequestNotFoundError, stB) ∧
  reject no_faults (super_admin "r9") stB = (RequestNotFoundError, stB).
Proof. apply resolve_unknown_request; reflexivity. Defined.

(** X2.  Reject never touches a patient or a hospital, whatever happens;
    it leaves every other request alone; and when it replies with success
    the request was PENDING and is now the same request with status
    REJECTED. *)
Theorem reject_merges_nothing f req st :
  patients (snd (reject f req st)) = patients st ∧
  hospitals (snd (reject f req st)) = hospitals st ∧
  (∀ id, id ≠ params_id req →
         requests (snd (reject f req st)) !! id = requests st !! id) ∧
  (∀ b, fst (reject f req st) = Json 200 b →
        ∃ r, requests st !! params_id req = Some r ∧
             status_of r = PENDING ∧
             requests (snd (reject f req st)) !! params_id req
               = Some (with_status r REJECTED)).
Proof.
  rewrite reject_unfold.
  destruct (negb (is_super_admin req)); [by repeat split|].
  destruct (requests_read_fails f); [by repeat split|].
  destruct (requests st !! params_id req) as [r|] eqn:Hr; [|by repeat split].
  destruct (is_pending r) eqn:Hp; simpl; [|by repeat split].
  destruct (requests_write_fails f); simpl; [by repeat split|].
  repeat split.
  - intros id Hne. by rewrite lookup_insert_ne.
  - intros b _. exists r. apply is_pending_true in Hp.
    by rewrite lookup_insert_eq.
Qed.

Lemma reject_merges_nothing_witness :
  requests (snd (reject no_faults (super_admin "r1") stE)) !! "r3" = requests stE !! "r3" ∧
  ∃ r, requests stE !! "r1" = Some r ∧
       status_of r = PENDING ∧
       requests (snd (reject no_faults (super_admin "r1") stE)) !! "r1"
         = Some (with_status r REJECTED).
Proof.
  destruct (reject_merges_nothing no_faults (super_admin "r1") stE)
    as (_ & _ & Hother & Hdone).
  split.
  - apply Hother. discriminate.
  - apply (Hdone (Message true "Request rejected")). reflexivity.
Defined.

(** X3.  Whatever calls are made, a request keeps its patient, hospital,
    requested changes and creation time (the reviewer resolves exactly
    what was submitted), and an id that is not in the store stays out of
    it. *)
Theorem request_payload_immutable calls : ∀ st st' id,
  st' ∈ run st calls →
  match requests st !! id with
  | Some r => ∃ r', requests st' !! id = Some r' ∧ same_but_status r r'
  | None => requests st' !! id = None
  end.
Proof.
  induction calls as [|c calls IH]; intros st st' id Hin; simpl in Hin.
  - apply list_elem_of_singleton in Hin as ->.
    destruct (requests st !! id) as [r|]; [|done].
    exists r. split; [done | apply same_but_status_refl].
  - apply elem_of_cons in Hin as [-> | Hin].
    { destruct (requests st !! id) as [r|]; [|done].
      exists r. split; [done | apply same_but_status_refl]. }
    specialize (IH _ _ id Hin).
    destruct (step_requests c st id) as [Heq | (r & s & Hr & Hr')].
    + by rewrite Heq in IH.
    + rewrite Hr' in IH. rewrite Hr.
      destruct IH as (r' & Hr'' & Hsame). exists r'. split; [done|].
      eapply same_but_status_trans; [apply same_but_status_with | done].
Qed.

Lemma request_payload_immutable_witness :
  ∃ r', requests (snd (approve no_faults (super_admin "r1") stB)) !! "r1" = Some r' ∧
        same_but_status (mkRequest "p1" "h1" phone_change PENDING 10) r'.
Proof.
  apply (request_payload_immutable
           [CallApprove no_faults (super_admin "r1")] stB
           (snd (approve no_faults (super_admin "r1") stB)) "r1").
  simpl. right. left.
Defined.

(** One call rewrites at most one patient: the one a PENDING request
    being approved points to, which gets the merged document. *)
Lemma step_patients c st pid :
  patients (snd (step c st)) !! pid = patients st !! pid ∨
  ∃ f req r doc,
    c = CallApprove f req ∧
    requests st !! params_id req = Some r ∧
    status_of r = PENDING ∧
    patient r = pid ∧
    patients st !! pid = Some doc ∧
    patients (snd (step c st)) !! pid = Some (Object_assign doc (requestedChanges r)).
Proof.
  destruct c as [f req|f req|f req|f req]; simpl.
  - rewrite getRequests_unfold. repeat case_match; auto.
  - rewrite getRequestsCount_unfold. repeat case_match; auto.
  - rewrite approve_unfold.
    destruct (negb (is_super_admin req)); [auto|].
    destruct (requests_read_fails f); [auto|].
    destruct (requests st !! params_id req) as [r|] eqn:Hr; [|auto].
    destruct (is_pending r) eqn:Hp; simpl; [|auto].
    destruct (patients_read_fails f); [auto|].
    destruct (patients st !! patient r) as [doc|] eqn:Hd; [|auto].
    destruct (patients_write_fails f); [auto|].
    apply is_pending_true in Hp.
    assert (patients (record_saved st r doc) !! pid = patients st !! pid ∨
            (patient r = pid ∧
             patients (record_saved st r doc) !! pid
               = Some (Object_assign doc (requestedChanges r)))) as Hcase.
    { simpl. destruct (decide (patient r = pid)) as [<-|Hne].
      - right. by rewrite lookup_insert_eq.
      - left. by rewrite lookup_insert_ne. }
    destruct (requests_write_fails f); simpl in *;
      (destruct Hcase as [Hsame | [Hpid Hnew]]; [by left|]);
      right; exists f, req, r, doc; subst pid; done.
  - left. rewrite reject_unfold. repeat case_match; done.
Qed.

(** X4.  Whatever calls are made, no collection gains or loses a
    document: the patients and the requests of the store are the same ids
    throughout, and the hospitals are untouched. *)
Theorem no_document_created_or_deleted calls : ∀ st st',
  st' ∈ run st calls →
  dom (patients st') = dom (patients st) ∧
  dom (requests st') = dom (requests st) ∧
  hospitals st' = hospitals st.
Proof.
  induction calls as [|c calls IH]; intros st st' Hin; simpl in Hin.
  - by apply list_elem_of_singleton in Hin as ->.
  - apply elem_of_cons in Hin as [-> | Hin]; [done|].
    destruct (IH _ _ Hin) as (Hp & Hr & Hh).
    rewrite Hp, Hr, Hh, step_hospitals. split; [|split; [|done]].
    + apply set_eq. intros pid. rewrite !elem_of_dom.
      destruct (step_patients c st pid) as [-> | (f & req & r & doc & _ & _ & _ & _ & -> & ->)];
        [done|]. split; eauto.
    + apply set_eq. intros id. rewrite !elem_of_dom.
      destruct (step_requests c st id) as [-> | (r & s & -> & ->)]; [done|].
      split; eauto.
Qed.

Lemma no_document_created_or_deleted_witness :
  dom (patients (snd (approve no_faults (super_admin "r1") stB))) = dom (patients stB) ∧
  dom (requests (snd (approve no_faults (super_admin "r1") stB))) = dom (requests stB) ∧
  hospitals (snd (approve no_faults (super_admin "r1") stB)) = hospitals stB.
Proof.
  apply (no_document_created_or_deleted [CallApprove no_faults (super_admin "r1")]).
  simpl. right. left.
Defined.

(** X5.  One approve changes at most one patient document, and only in
    this way: the request is PENDING, the document is the one it points
    to, and the new document is the old one with the requested changes
    assigned onto it.  No other call changes any patient. *)
Theorem only_approve_rewrites_a_patient c st pid :
  patients (snd (step c st)) !! pid ≠ patients st !! pid →
  ∃ f req r doc,
    c = CallApprove f req ∧
    requests st !! params_id req = Some r ∧
    status_of r = PENDING ∧
    patient r = pid ∧
    patients st !! pid = Some doc ∧
    patients (snd (step c st)) !! pid = Some (Object_assign doc (requestedChanges r)).
Proof. intros Hne. by destruct (step_patients c st pid) as [Heq | H]. Qed.

Lemma only_approve_rewrites_a_patient_witness :
  ∃ f req r doc,
    CallApprove no_faults (super_admin "r1") = CallApprove f req ∧
    requests stB !! params_id req = Some r ∧
    status_of r = PENDING ∧
    patient r = "p1" ∧
    patients stB !! "p1" = Some doc ∧
    patients (snd (step (CallApprove no_faults (super_admin "r1")) stB)) !! "p1"
      = Some (Object_assign doc (requestedChanges r)).
Proof.
  apply (only_approve_rewrites_a_patient (CallApprove no_faults (super_admin "r1")) stB "p1").
  vm_compute. discriminate.
Defined.

(** X6.  The two GET endpoints never write: whatever the role and
    whatever fails, the store after the call is the store before it. *)
Theorem listing_and_count_read_only f req st :
  snd (getRequests f req st) = st ∧ snd (getRequestsCount f req st) = st.
Proof.
  rewrite getRequests_unfold, getRequestsCount_unfold.
  repeat case_match; done.
Qed.

End FrameFacts.

(** ** Merging twice, and resolving after a failure *)

Section Retry.
Import JS Store Admin Engine Frame Scenarios.

Lemma has_prop_set (o : jsobj) k v k' :
  has_prop (set_prop o k v) k' = has_prop o k' || String.eqb k k'.
Proof.
  induction o as [|[k0 v0] o IH]; simpl.
  - by rewrite orb_false_r.
  - destruct (String.eqb k0 k) eqn:E; simpl.
    + apply String.eqb_eq in E. subst k0.
      by destruct (String.eqb k k'), (has_prop o k').
    + rewrite IH. by rewrite orb_assoc.
Qed.

(** [Object.assign] never removes a property of its target. *)
Lemma has_prop_assign_target (src t : jsobj) k :
  has_prop t k = true → has_prop (Object_assign t src) k = true.
Proof.
  revert t. induction src as [|[k0 v0] src IH]; intros t Ht; [done|].
  rewrite assign_cons. apply IH. simpl. rewrite has_prop_set, Ht. done.
Qed.

Lemma has_prop_assign_source (src t : jsobj) k v :
  (k, v) ∈ src → has_prop (Object_assign t src) k = true.
Proof.
  revert t. induction src as [|[k0 v0] src IH]; intros t Hin.
  - by apply not_elem_of_nil in Hin.
  - rewrite assign_cons. apply elem_of_cons in Hin as [[= <- <-] | Hin]; [|by apply IH].
    apply has_prop_assign_target. simpl.
    by rewrite has_prop_set, String.eqb_refl, orb_true_r.
Qed.

(** Assigning a property the value it already has changes nothing. *)
Lemma set_prop_same (o : jsobj) k v :
  has_prop o k = true → get_prop o k = v → set_prop o k v = o.
Proof.
  induction o as [|[k0 v0] o IH]; simpl; [done|].
  destruct (String.eqb k0 k) eqn:E; simpl.
  - by intros _ ->.
  - intros Hk Hv. by rewrite IH.
Qed.

Lemma assign_fixpoint (src o : jsobj) :
  (∀ k v, (k, v) ∈ src → set_prop o k v = o) → Object_assign o src = o.
Proof.
  induction src as [|[k0 v0] src IH]; intros H; [done|].
  rewrite assign_cons. simpl. rewrite (H k0 v0) by left.
  apply IH. intros k v Hin. apply H. by right.
Qed.

(** Merging the same payload a second time changes nothing. *)
Lemma assign_idempotent (src t : jsobj) :
  wf_obj src → Object_assign (Object_assign t src) src = Object_assign t src.
Proof.
  intros Hwf. apply assign_fixpoint. intros k v Hin.
  apply set_prop_same.
  - by apply has_prop_assign_source with v.
  - by apply assign_copied.
Qed.

(** X7.  If the status save fails after the record save, approving the
    same request again with every store call succeeding ends with the
    reply and the store that a single clean approve would have given: the
    changes are not applied twice over. *)
Theorem approve_retry_converges f req st r doc :
  userRole req = "SUPER_ADMIN" →
  requests_read_fails f = false →
  patients_read_fails f = false →
  patients_write_fails f = false →
  requests_write_fails f = true →
  requests st !! params_id req = Some r →
  status_of r = PENDING →
  patients st !! patient r = Some doc →
  wf_obj (requestedChanges r) →
  approve no_faults req (snd (approve f req st)) = approve no_faults req st.
Proof.
  intros Hrole Hf1 Hf2 Hf3 Hf4 Hr Hs Hp Hwf.
  rewrite (approve_success req st r doc) by done.
  assert (snd (approve f req st) = record_saved st r doc) as ->.
  { apply is_super_admin_iff in Hrole. apply is_pending_true in Hs.
    by rewrite approve_unfold, Hrole, Hf1, Hr, Hs, Hf2, Hp, Hf3, Hf4. }
  rewrite (approve_success req (record_saved st r doc) r
             (Object_assign doc (requestedChanges r))); [|done..| apply lookup_insert_eq].
  unfold request_resolved, record_saved, with_requests, with_patients. simpl.
  by rewrite insert_insert_eq, assign_idempotent.
Qed.

Lemma approve_retry_converges_witness :
  approve no_faults (super_admin "r1")
    (snd (approve status_save_fails (super_admin "r1") stB))
  = approve no_faults (super_admin "r1") stB.
Proof.
  apply (approve_retry_converges status_save_fails (super_admin "r1") stB
           (mkRequest "p1" "h1" phone_change PENDING 10) alice); try reflexivity.
  apply (bool_decide_unpack _). vm_compute. exact I.
Defined.

(** X8.  If the status save fails after the record save, the request is
    still PENDING and can be rejected: the request then ends REJECTED
    while the patient keeps the requested changes. *)
Theorem reject_after_failed_approve f req st r doc :
  userRole req = "SUPER_ADMIN" →
  requests_read_fails f = false →
  patients_read_fails f = false →
  patients_write_fails f = false →
  requests_write_fails f = true →
  requests st !! params_id req = Some r →
  status_of r = PENDING →
  patients st !! patient r = Some doc →
  fst (reject no_faults req (snd (approve f req st)))
    = Json 200 (Message true "Request rejected") ∧
  status_in (params_id req) (snd (reject no_faults req (snd (approve f req st))))
    = Some REJECTED ∧
  patients (snd (reject no_faults req (snd (approve f req st)))) !! patient r
    = Some (Object_assign doc (requestedChanges r)).
Proof.
  intros Hrole%is_super_admin_iff Hf1 Hf2 Hf3 Hf4 Hr Hs%is_pending_true Hp.
  assert (snd (approve f req st) = record_saved st r doc) as ->.
  { by rewrite approve_unfold, Hrole, Hf1, Hr, Hs, Hf2, Hp, Hf3, Hf4. }
  rewrite reject_unfold, Hrole. simpl. rewrite Hr, Hs. simpl.
  split; [done|]. split.
  - rewrite status_in_resolved. by rewrite decide_True.
  - unfold request_resolved, record_saved. simpl. apply lookup_insert_eq.
Qed.

Lemma reject_after_failed_approve_witness :
  fst (reject no_faults (super_admin "r1")
         (snd (approve status_save_fails (super_admin "r1") stB)))
    = Json 200 (Message true "Request rejected") ∧
  status_in "r1" (snd (reject no_faults (super_admin "r1")
                         (snd (approve status_save_fails (super_admin "r1") stB))))
    = Some REJECTED ∧
  patients (snd (reject no_faults (super_admin "r1")
                   (snd (approve status_save_fails (super_admin "r1") stB)))) !! "p1"
    = Some (Object_assign alice phone_change).
Proof.
  apply (reject_after_failed_approve status_save_fails (super_admin "r1") stB
           (mkRequest "p1" "h1" phone_change PENDING 10) alice); reflexivity.
Defined.



End Retry.

(** ** The page over time *)

Section PageFacts.
Import JS Store Admin Client Engine Page Scenarios.

Lemma fetchRequests_ok response shown :
  Forall (fun request => is_Some (req_patient request)) shown →
  Forall (fun request => is_Some (req_patient request)) (fetchRequests response shown).
Proof.
  intros Hshown. unfold fetchRequests.
  destruct (axios_data response) as [[| | |]|]; try done.
  apply Forall_forall. by intros request [H _]%list_elem_of_filter.
Qed.

Lemma fetchRequestsPage_ok response pg : page_ok pg → page_ok (fetchRequestsPage response pg).
Proof. apply fetchRequests_ok. Qed.

Lemma after_success_ok msg f role st pg :
  page_ok pg → page_ok (snd (after_success msg f role st pg)).
Proof. intros H. unfold after_success. simpl. by apply fetchRequests_ok. Qed.

Lemma act_ok role a w : page_ok (snd w) → page_ok (snd (act role a w)).
Proof.
  intros H. destruct a as [f_get|f_post f_get id|confirmed f_post f_get id]; simpl.
  - by apply fetchRequestsPage_ok.
  - unfold handleApprove. destruct (axios_data _); [by apply after_success_ok | done].
  - unfold handleReject. destruct (negb confirmed); [done|].
    destruct (axios_data _); [by apply after_success_ok | done].
Qed.

Lemma session_ok role gestures : ∀ w,
  page_ok (snd w) → page_ok (snd (session role gestures w)).
Proof.
  induction gestures as [|a gestures IH]; intros w H; [done|].
  simpl. apply IH. by apply act_ok.
Qed.

(** X10.  From the moment the page is mounted, and whatever the user
    clicks and whatever fails, every request on the page carries its
    patient: the diff of a shown request is always computed against that
    patient, never against the empty fallback object. *)
Theorem page_requests_have_patients role f st gestures request :
  request ∈ page_requests (snd (session role gestures (mount f role st))) →
  ∃ doc, req_patient request = Some doc ∧
         formatChanges request = map (formatChange doc) (req_requestedChanges request).
Proof.
  intros Hin.
  assert (page_ok (snd (session role gestures (mount f role st)))) as Hok.
  { apply session_ok. unfold mount. simpl. apply fetchRequestsPage_ok. constructor. }
  unfold page_ok in Hok. rewrite Forall_forall in Hok.
  destruct (Hok _ Hin) as [doc Hdoc]. exists doc. split; [done|].
  unfold formatChanges. by rewrite Hdoc.
Qed.

Lemma page_requests_have_patients_witness :
  ∃ doc,
    req_patient (populate stE ("r1", mkRequest "p1" "h1" phone_change PENDING 10))
      = Some doc ∧
    formatChanges (populate stE ("r1", mkRequest "p1" "h1" phone_change PENDING 10))
      = map (formatChange doc) phone_change.
Proof.
  apply (page_requests_have_patients "SUPER_ADMIN" no_faults stE []).
  vm_compute. right. left.
Defined.





Lemma scoped_act role a w :
  role ≠ "SUPER_ADMIN" →
  fst (act role a w) = fst w ∧
  page_requests (snd (act role a w)) = page_requests (snd w) ∧
  page_events (snd (act role a w)) = page_events (snd w).
Proof.
  intros Hrole.
  assert (negb (is_super_admin (as_user role EmptyString)) = true) as Hget
    by by apply not_super_admin.
  destruct a as [f_get|f_post f_get id|confirmed f_post f_get id]; simpl.
  - by rewrite getRequests_unfold, Hget.
  - unfold handleApprove.
    rewrite approve_unfold, (not_super_admin (as_user role id)) by done. done.
  - unfold handleReject. destruct (negb confirmed); [done|].
    rewrite reject_unfold, (not_super_admin (as_user role id)) by done. done.
Qed.

(** X12.  Whatever a user whose role is not SUPER_ADMIN does on the page
    (reload, approve, reject), the store stays exactly as it is, the list
    on the page stays as it is, and no sidebar event is raised. *)
Theorem scoped_user_session_changes_nothing role gestures : ∀ w,
  role ≠ "SUPER_ADMIN" →
  fst (session role gestures w) = fst w ∧
  page_requests (snd (session role gestures w)) = page_requests (snd w) ∧
  page_events (snd (session role gestures w)) = page_events (snd w).
Proof.
  induction gestures as [|a gestures IH]; intros w Hrole; [done|].
  simpl. destruct (IH (act role a w) Hrole) as (-> & -> & ->).
  by apply scoped_act.
Qed.

Lemma scoped_user_session_changes_nothing_witness :
  fst (session "HOSPITAL_ADMIN"
         [ClickApprove no_faults no_faults "r1"; Reload no_faults] (stB, initial_page))
    = stB ∧
  page_requests (snd (session "HOSPITAL_ADMIN"
         [ClickApprove no_faults no_faults "r1"; Reload no_faults] (stB, initial_page)))
    = [] ∧
  page_events (snd (session "HOSPITAL_ADMIN"
         [ClickApprove no_faults no_faults "r1"; Reload no_faults] (stB, initial_page)))
    = 0%nat.
Proof.
  apply (scoped_user_session_changes_nothing "HOSPITAL_ADMIN"
           [ClickApprove no_faults no_faults "r1"; Reload no_faults] (stB, initial_page)).
  discriminate.
Defined.

(** X13.  A reject click never changes a patient or a hospital, and a
    click whose confirmation is declined sends nothing: store, page and
    toasts are untouched. *)
Theorem reject_click_merges_nothing confirmed f_post f_get role id w :
  patients (fst (handleReject confirmed f_post f_get role id w)) = patients (fst w) ∧
  hospitals (fst (handleReject confirmed f_post f_get role id w)) = hospitals (fst w) ∧
  (confirmed = false → handleReject confirmed f_post f_get role id w = w).
Proof.
  unfold handleReject. destruct confirmed; simpl; [|done].
  pose proof (reject_unfold f_post (as_user role id) (fst w)) as Hrej.
  assert (patients (snd (reject f_post (as_user role id) (fst w))) = patients (fst w) ∧
          hospitals (snd (reject f_post (as_user role id) (fst w))) = hospitals (fst w))
    as [Hp Hh].
  { rewrite Hrej. repeat case_match; done. }
  destruct (axios_data _); simpl; [|done].
  unfold after_success. simpl.
  rewrite getRequests_unfold. repeat case_match; done.
Qed.

Lemma reject_click_merges_nothing_witness :
  handleReject false no_faults no_faults "SUPER_ADMIN" "r1" (stB, initial_page)
  = (stB, initial_page).
Proof.
  destruct (reject_click_merges_nothing false no_faults no_faults "SUPER_ADMIN" "r1"
              (stB, initial_page)) as (_ & _ & Hdeclined).
  apply Hdeclined. reflexivity.
Defined.

End PageFacts.

(** ** The order and the exactness of the diff *)

Section DiffFacts.
Import JS Store Client Page Frame Unquote Scenarios.

Lemma append_cons x (a b : string) : String x a ++ b = String x (a ++ b).
Proof. reflexivity. Qed.

Lemma append_assoc (a b c : string) : (a ++ b) ++ c = a ++ (b ++ c).
Proof.
  induction a as [|x a IH]; [done|]. rewrite !append_cons. by f_equal.
Qed.

Lemma unescape_escape_char c rest :
  unescape (escape_char c ++ rest) = String c (unescape rest).
Proof.
  destruct c as [b0 b1 b2 b3 b4 b5 b6 b7].
  destruct b0, b1, b2, b3, b4, b5, b6, b7; reflexivity.
Qed.

Lemma unescape_escape s rest : unescape (escape s ++ rest) = s ++ unescape rest.
Proof.
  induction s as [|c s IH]; [done|].
  cbn [escape]. rewrite append_assoc, unescape_escape_char, IH. done.
Qed.

Lemma append_last_inj (a b : string) c :
  a ++ String c EmptyString = b ++ String c EmptyString → a = b.
Proof.
  revert b. induction a as [|x a IH]; intros [|y b]; rewrite ?append_cons; try done.
  - intros [= _ H]. by destruct b.
  - intros [= _ H]. by destruct a.
  - intros [= -> H]. f_equal. by apply IH.
Qed.

(** Different strings have different literals. *)
Lemma quote_inj a b : quote a = quote b → a = b.
Proof.
  unfold quote. intros [= H].
  apply (f_equal unescape) in H. rewrite !unescape_escape in H.
  by apply append_last_inj in H.
Qed.

Lemma pretty_N_char_digit x : pretty_N_char x ∈ digits.
Proof.
  unfold pretty_N_char, digits. repeat case_match; set_solver.
Qed.

Lemma pretty_N_go_digit x : ∀ s,
  (0 < x)%N → starts_with digits (pretty_N_go x s).
Proof.
  induction (N.lt_wf_0 x) as [x _ IH]; intros s Hx.
  rewrite pretty_N_go_step by done.
  destruct (decide (x `div` 10 = 0)%N) as [-> | Hne].
  - rewrite pretty_N_go_0. simpl. apply pretty_N_char_digit.
  - apply IH; [apply N.div_lt; lia | by apply N.neq_0_lt_0].
Qed.

(** A printed number starts with a digit or the minus sign. *)
Lemma pretty_Z_head (n : Z) : starts_with ("-"%char :: digits) (pretty n).
Proof.
  destruct n as [|p|p]; unfold pretty, pretty_Z.
  - simpl. set_solver.
  - unfold pretty, pretty_positive, pretty, pretty_N. simpl.
    pose proof (pretty_N_go_digit (N.pos p) EmptyString) as H.
    destruct (pretty_N_go _ _); simpl in *; [apply H; lia|].
    right. apply H. lia.
  - simpl. left.
Qed.

Lemma not_starts_with chars c rest : c ∉ chars → ¬ starts_with chars (String c rest).
Proof. done. Qed.

Ltac number_clash n H :=
  pose proof (pretty_Z_head n) as Hhead; rewrite H in Hhead;
  exfalso; revert Hhead; apply not_starts_with; unfold digits;
  vm_compute; intros Hin;
  repeat (apply elem_of_cons in Hin as [Hin | Hin]; [discriminate Hin|]);
  by apply not_elem_of_nil in Hin.

(** [JSON.stringify] tells any two different scalars apart. *)
Lemma JSON_stringify_scalar_inj a b :
  scalar a → scalar b → JSON_stringify a = JSON_stringify b → a = b.
Proof.
  destruct a as [| |[]|n|s|], b as [| |[]|m|t|]; simpl; try done;
    intros _ _ H; apply (inj Some) in H; try discriminate H.
  all: try (number_clash n H).
  all: try (symmetry in H; number_clash m H).
  - f_equal. by apply (inj pretty).
  - by apply quote_inj in H as ->.
Qed.

(** X15.  Under an existing nested object, a row is skipped exactly when
    the old and the proposed sub-value are the same scalar: comparing the
    two serialisations loses nothing on strings, numbers, booleans, null
    and an absent old value. *)
Theorem scalar_row_skipped_iff_equal o sk new :
  scalar (get_prop o sk) →
  scalar new →
  formatSubChange (JObj o) (sk, new) = None ↔ get_prop o sk = new.
Proof.
  intros Hold Hnew. rewrite sub_change_skipped_iff. split.
  - by apply JSON_stringify_scalar_inj.
  - by intros ->.
Qed.

Lemma scalar_row_skipped_iff_equal_witness :
  formatSubChange (JObj [("phone", JStr "111")]) ("phone", JStr "111") = None ↔
  get_prop [("phone", JStr "111")] "phone" = JStr "111".
Proof. apply scalar_row_skipped_iff_equal; exact I. Defined.

End DiffFacts.

(** ** The owner dashboard *)

Section DashboardFacts.
Import JS Dashboard.

Lemma status_filters_disjoint (hospitals : list jsobj) :
  (length (filter (has_status "APPROVED") hospitals)
   + length (filter (has_status "PENDING") hospitals)
   ≤ length hospitals)%nat.
Proof.
  induction hospitals as [|h hospitals IH]; [done|].
  rewrite !filter_cons.
  destruct (decide (has_status "APPROVED" h)) as [Ha|];
    destruct (decide (has_status "PENDING" h)) as [Hp|]; simpl; try lia.
  unfold has_status in *.
  apply strict_equal_primitive in Ha; [|done].
  apply strict_equal_primitive in Hp; [|done].
  congruence.
Qed.

Lemma fetchData_consistent hr pr d :
  stats_consistent d → stats_consistent (fetchData hr pr d).
Proof.
  intros Hd. unfold fetchData.
  destruct hr as [|[hospitals|]]; try done.
  destruct pr as [|[patients|]]; try done.
  unfold stats_consistent. simpl. split; [apply status_filters_disjoint|].
  rewrite length_take. lia.
Qed.

(** X16.  After any series of loads, successful or not, the cards fit
    together: approved plus pending hospitals never exceed the total, and
    the recent-patients table has at most ten rows and never more rows
    than the total of patients. *)
Theorem dashboard_numbers_fit loads : stats_consistent (after_loads loads).
Proof.
  unfold after_loads.
  assert (stats_consistent initial_dashboard) as Hinit
    by (unfold stats_consistent; simpl; lia).
  revert Hinit. generalize initial_dashboard.
  induction loads as [|load loads IH]; intros d Hd; [done|].
  simpl. apply IH. by apply fetchData_consistent.
Qed.

Lemma fetchData_failed hr pr d :
  load_ok (hr, pr) = false →
  dash_stats (fetchData hr pr d) = dash_stats d ∧
  recentPatients (fetchData hr pr d) = recentPatients d ∧
  dash_loading (fetchData hr pr d) = false.
Proof. by destruct hr as [|[?|]], pr as [|[?|]]. Qed.

Lemma failed_loads_keep failures : ∀ d,
  Forall (fun load => load_ok load = false) failures →
  dash_stats (fold_left (fun d load => fetchData (fst load) (snd load) d) failures d)
    = dash_stats d ∧
  recentPatients (fold_left (fun d load => fetchData (fst load) (snd load) d) failures d)
    = recentPatients d.
Proof.
  induction failures as [|[hr pr] failures IH]; intros d Hall; [done|].
  apply Forall_cons in Hall as [Hfail Hall]. simpl.
  destruct (IH (fetchData hr pr d) Hall) as [-> ->].
  destruct (fetchData_failed hr pr d Hfail) as (-> & -> & _). done.
Qed.

(** X17.  The dashboard shows the last load that succeeded: whatever
    was loaded before, and however many loads failed after it, the totals
    are the sizes of that response's lists and the table holds its first
    ten patients, in the response's order (all of them when there are
    fewer).  A failed load never blanks the data. *)
Theorem dashboard_shows_last_good_load earlier failures hospitals patients :
  Forall (fun load => load_ok load = false) failures →
  let d := after_loads
             (earlier ++ (Data (Some hospitals), Data (Some patients)) :: failures) in
  totalHospitals (dash_stats d) = length hospitals ∧
  totalPatients (dash_stats d) = length patients ∧
  recentPatients d = take 10 patients ∧
  length (recentPatients d) = (length patients `min` 10)%nat.
Proof.
  intros Hfail. cbv zeta. unfold after_loads.
  rewrite fold_left_app. simpl.
  match goal with
  | |- context [fold_left ?step failures ?d0] =>
      destruct (failed_loads_keep failures d0 Hfail) as [-> ->]
  end.
  simpl. repeat split. rewrite length_take. lia.
Qed.

Lemma dashboard_shows_last_good_load_witness :
  let d := after_loads
             [(Data (Some [[("status", JStr "APPROVED")]]), Data (Some [[("fullName", JStr "Bob")]]));
              (Rejected, Data None)] in
  totalHospitals (dash_stats d) = 1%nat ∧
  totalPatients (dash_stats d) = 1%nat ∧
  recentPatients d = [[("fullName", JStr "Bob")]] ∧
  length (recentPatients d) = 1%nat.
Proof.
  apply (dashboard_shows_last_good_load []
           [(Rejected, Data None)]
           [[("status", JStr "APPROVED")]] [[("fullName", JStr "Bob")]]).
  repeat constructor.
Defined.



End DashboardFacts.

(** ** The report routes *)

Section ReportFacts.
Import JS Reports.

Lemma check_hospital_denied req h h' :
  r_userRole req ≠ "SUPER_ADMIN" →
  r_userHospital req = Some h →
  h' ≠ h →
  check_hospital req (Some h') = Denied.
Proof.
  intros Hrole Hh Hne. unfold check_hospital. rewrite Hh.
  destruct (String.eqb (r_userRole req) "SUPER_ADMIN") eqn:E;
    [by apply String.eqb_eq in E|]. simpl.
  destruct (String.eqb h' h) eqn:E'; [by apply String.eqb_eq in E'|]. done.
Qed.

(** X19.  A user who is not SUPER_ADMIN cannot reach the patients of
    another hospital through the report routes: creating a report for such
    a patient and listing the patient's reports both reply 403 and leave
    the store as it is. *)
Theorem foreign_patient_is_denied e f req st h h' :
  r_userRole req ≠ "SUPER_ADMIN" →
  r_userHospital req = Some h →
  h' ≠ h →
  patient_read_fails f = false →
  (∀ doc,
     r_patients st !! r_param req = Some doc →
     patient_hospital doc = Some h' →
     is_403 (fst (listReports e f req st)) ∧ snd (listReports e f req st) = st) ∧
  (∀ doc,
     present (b_patientId (r_body req)) = true →
     present (b_title (r_body req)) = true →
     r_patients st !! text (b_patientId (r_body req)) = Some doc →
     patient_hospital doc = Some h' →
     is_403 (fst (createReport e f req st)) ∧ snd (createReport e f req st) = st).
Proof.
  intros Hrole Hh Hne Hf. split.
  - intros doc Hdoc Hown. unfold listReports.
    rewrite Hf, Hdoc, Hown, (check_hospital_denied req h h') by done.
    split; [by eexists | done].
  - intros doc Hp Ht Hdoc Hown. unfold createReport.
    rewrite Hp, Ht, Hf. simpl.
    rewrite Hdoc, Hown, (check_hospital_denied req h h') by done.
    split; [by eexists | done].
Qed.

Lemma foreign_patient_is_denied_witness :
  is_403 (fst (listReports env0 no_rfaults (staff "h2" "p1" no_body) stR)) ∧
  snd (listReports env0 no_rfaults (staff "h2" "p1" no_body) stR) = stR.
Proof.
  destruct (foreign_patient_is_denied env0 no_rfaults (staff "h2" "p1" no_body) stR
              "h2" "h1") as [Hlist _]; [discriminate | reflexivity | discriminate | reflexivity |].
  apply (Hlist bob); reflexivity.
Defined.

(** X20.  A user who is not SUPER_ADMIN cannot read, change or delete a
    report of another hospital: each of the three routes replies 403 and
    leaves the store as it is. *)
Theorem foreign_report_is_denied r e f req st doc h h' :
  by_report_id r →
  r_userRole req ≠ "SUPER_ADMIN" →
  r_userHospital req = Some h →
  h' ≠ h →
  report_read_fails f = false →
  r_reports st !! r_param req = Some doc →
  rep_hospital doc = Some h' →
  is_403 (fst (serve r e f req st)) ∧ snd (serve r e f req st) = st.
Proof.
  intros Hr Hrole Hh Hne Hf Hdoc Hown.
  destruct r; try done; simpl;
    unfold getReport, updateReport, deleteReport;
    rewrite Hf, Hdoc, Hown, (check_hospital_denied req h h') by done;
    (split; [by eexists | done]).
Qed.

Lemma foreign_report_is_denied_witness :
  is_403 (fst (deleteReport env0 no_rfaults (staff "h2" "a1" no_body) stR)) ∧
  snd (deleteReport env0 no_rfaults (staff "h2" "a1" no_body) stR) = stR.
Proof.
  apply (foreign_report_is_denied Delete env0 no_rfaults (staff "h2" "a1" no_body) stR
           xray "h2" "h1");
    [exact I | discriminate | reflexivity | discriminate
    | reflexivity | reflexivity | reflexivity].
Defined.

(** X21.  No report route ever changes a patient, and the two GET routes
    change nothing at all, whoever calls and whatever fails. *)
Theorem report_routes_spare_patients r e f req st :
  r_patients (snd (serve r e f req st)) = r_patients st ∧
  (r = List ∨ r = Get → snd (serve r e f req st) = st).
Proof.
  destruct r; simpl;
    unfold createReport, listReports, getReport, updateReport, deleteReport;
    (split; [repeat case_match; done|]);
    intros [? | ?]; try done; repeat case_match; done.
Qed.

Lemma report_routes_spare_patients_witness :
  snd (getReport env0 no_rfaults (staff "h1" "a1" no_body) stR) = stR.
Proof.
  destruct (report_routes_spare_patients Get env0 no_rfaults (staff "h1" "a1" no_body) stR)
    as [_ Hread].
  apply Hread. by right.
Defined.

(** X22.  An update never moves a report to another patient, hospital or
    author, never touches another report, and never adds or removes one:
    only the five listed fields of the addressed report can change. *)
Theorem update_keeps_owner e f req st id :
  match r_reports st !! id with
  | Some doc =>
      ∃ doc', r_reports (snd (updateReport e f req st)) !! id = Some doc' ∧
              same_owner doc doc' ∧
              (id ≠ r_param req → doc' = doc)
  | None => r_reports (snd (updateReport e f req st)) !! id = None
  end.
Proof.
  assert (∀ doc : report, same_owner doc doc) as Hrefl by (by repeat split).
  unfold updateReport.
  destruct (report_read_fails f).
  { simpl. destruct (r_reports st !! id) as [doc|]; eauto. }
  destruct (r_reports st !! r_param req) as [target|] eqn:Ht.
  2: { simpl. destruct (r_reports st !! id) as [doc|]; eauto. }
  destruct (check_hospital req (rep_hospital target)).
  2, 3: simpl; destruct (r_reports st !! id) as [doc|]; eauto.
  destruct (report_write_fails f).
  { simpl. destruct (r_reports st !! id) as [doc|]; eauto. }
  assert (∀ rest : rreply,
    match r_reports st !! id with
    | Some doc =>
        ∃ doc', r_reports (snd (rest, with_reports st
                  (<[r_param req := apply_update e (r_body req) target]> (r_reports st))))
                  !! id = Some doc' ∧
                same_owner doc doc' ∧ (id ≠ r_param req → doc' = doc)
    | None => r_reports (snd (rest, with_reports st
                  (<[r_param req := apply_update e (r_body req) target]> (r_reports st))))
                  !! id = None
    end) as Hsaved.
  { intros rest. simpl. destruct (decide (r_param req = id)) as [<-|Hne].
    - rewrite Ht, lookup_insert_eq. eexists. split; [done|]. by repeat split.
    - rewrite lookup_insert_ne by done.
      destruct (r_reports st !! id) as [doc|]; eauto. }
  destruct (report_populate_fails f); apply Hsaved.
Qed.

Lemma update_keeps_owner_witness :
  ∃ doc',
    r_reports (snd (updateReport env0 no_rfaults
      (staff "h1" "a1" (mkBody None (Some "Chest X-ray") None None None None)) stR))
      !! "a2" = Some doc' ∧
    same_owner blood doc' ∧
    ("a2" ≠ "a1" → doc' = blood).
Proof.
  exact (update_keeps_owner env0 no_rfaults
           (staff "h1" "a1" (mkBody None (Some "Chest X-ray") None None None None))
           stR "a2").
Defined.

Lemma apply_update_idempotent e b doc :
  apply_update e b (apply_update e b doc) = apply_update e b doc.
Proof.
  unfold apply_update. simpl.
  destruct (present (b_title b)), (b_description b), (present (b_reportType b)),
    (present (b_reportDate b)), (b_reportFileUrl b); done.
Qed.

(** X23.  PUT is idempotent: sending the same update a second time,
    with no store failure in either run, gives the same reply and leaves
    the store as the first run left it. *)
Theorem update_twice_is_update_once e req st :
  updateReport e no_rfaults req (snd (updateReport e no_rfaults req st))
  = updateReport e no_rfaults req st.
Proof.
  unfold updateReport. simpl.
  destruct (r_reports st !! r_param req) as [doc|] eqn:Hdoc; simpl; [|by rewrite Hdoc].
  destruct (check_hospital req (rep_hospital doc)) eqn:Hcheck; simpl.
  - rewrite lookup_insert_eq. simpl. rewrite Hcheck.
    rewrite apply_update_idempotent. unfold with_reports. simpl.
    by rewrite insert_insert_eq.
  - by rewrite Hdoc, Hcheck.
  - by rewrite Hdoc, Hcheck.
Qed.

(** X24.  What a successful update stores: an empty or missing title,
    type or date keeps the old value (a title cannot be cleared), while a
    description or file URL that is sent, the empty text included,
    replaces the old one, and one that is left out keeps it. *)
Theorem update_stores_truthy_or_defined e f req st b :
  fst (updateReport e f req st) = RJson 200 b →
  ∃ doc doc',
    r_reports st !! r_param req = Some doc ∧
    r_reports (snd (updateReport e f req st)) !! r_param req = Some doc' ∧
    rep_title doc' = or_else (b_title (r_body req)) (rep_title doc) ∧
    rep_reportType doc' = or_else (b_reportType (r_body req)) (rep_reportType doc) ∧
    rep_reportDate doc' =
      (if present (b_reportDate (r_body req))
       then castDate e (text (b_reportDate (r_body req))) else rep_reportDate doc) ∧
    rep_description doc' = default (rep_description doc) (b_description (r_body req)) ∧
    rep_reportFileUrl doc' = default (rep_reportFileUrl doc) (b_reportFileUrl (r_body req)).
Proof.
  unfold updateReport.
  destruct (report_read_fails f); [done|].
  destruct (r_reports st !! r_param req) as [doc|]; [|done].
  destruct (check_hospital req (rep_hospital doc)); [|done..].
  destruct (report_write_fails f); [done|].
  destruct (report_populate_fails f); [done|]. intros _. simpl.
  exists doc, (apply_update e (r_body req) doc).
  rewrite lookup_insert_eq. unfold or_else. simpl.
  repeat split; by destruct (b_description _), (b_reportFileUrl _).
Qed.

Lemma update_stores_truthy_or_defined_witness :
  ∃ doc doc',
    r_reports stR !! "a1" = Some doc ∧
    r_reports (snd (updateReport env0 no_rfaults
      (staff "h1" "a1" (mkBody None (Some EmptyString) (Some EmptyString) None None None))
      stR)) !! "a1" = Some doc' ∧
    rep_title doc' = or_else (Some EmptyString) (rep_title doc) ∧
    rep_reportType doc' = or_else None (rep_reportType doc) ∧
    rep_reportDate doc' = rep_reportDate doc ∧
    rep_description doc' = default (rep_description doc) (Some EmptyString) ∧
    rep_reportFileUrl doc' = default (rep_reportFileUrl doc) None.
Proof.
  apply (update_stores_truthy_or_defined env0 no_rfaults
    (staff "h1" "a1" (mkBody None (Some EmptyString) (Some EmptyString) None None None))
    stR (RReport (Some "Report updated successfully") "a1"
           (mkReport "p1" (Some "h1") "X-ray" EmptyString "Imaging" 100 "x.png" "u1"))).
  reflexivity.
Defined.

(** X25.  Once a delete has replied with success, the report is gone:
    reading, updating or deleting the same id replies 404 "Report not
    found" and changes nothing, and every other report is as it was. *)
Theorem deleted_report_is_gone r e e' f f' req req' st b :
  fst (deleteReport e f req st) = RJson 200 b →
  by_report_id r →
  r_param req' = r_param req →
  report_read_fails f' = false →
  serve r e' f' req' (snd (deleteReport e f req st))
    = (not_found, snd (deleteReport e f req st)) ∧
  (∀ id, id ≠ r_param req →
         r_reports (snd (deleteReport e f req st)) !! id = r_reports st !! id) ∧
  r_reports (snd (deleteReport e f req st)) !! r_param req = None.
Proof.
  unfold deleteReport.
  destruct (report_read_fails f); [done|].
  destruct (r_reports st !! r_param req) as [doc|]; [|done].
  destruct (check_hospital req (rep_hospital doc)); [|done..].
  destruct (report_write_fails f); [done|].
  intros _ Hr Hparam Hf'. simpl. split; [|split].
  - destruct r; try done; simpl;
      unfold getReport, updateReport, deleteReport; simpl;
      by rewrite Hf', Hparam, lookup_delete_eq.
  - intros id Hne. by rewrite lookup_delete_ne.
  - apply lookup_delete_eq.
Qed.

Lemma deleted_report_is_gone_witness :
  getReport env0 no_rfaults (staff "h1" "a1" no_body)
    (snd (deleteReport env0 no_rfaults (staff "h1" "a1" no_body) stR))
    = (not_found, snd (deleteReport env0 no_rfaults (staff "h1" "a1" no_body) stR)) ∧
  (∀ id, id ≠ "a1" →
         r_reports (snd (deleteReport env0 no_rfaults (staff "h1" "a1" no_body) stR)) !! id
         = r_reports stR !! id) ∧
  r_reports (snd (deleteReport env0 no_rfaults (staff "h1" "a1" no_body) stR)) !! "a1"
    = None.
Proof.
  apply (deleted_report_is_gone Get env0 env0 no_rfaults no_rfaults
           (staff "h1" "a1" no_body) (staff "h1" "a1" no_body) stR
           (RMessage true "Report deleted successfully"));
    [reflexivity | exact I | reflexivity | reflexivity].
Defined.

Lemma check_hospital_own req :
  (r_userRole req = "SUPER_ADMIN" ∨ is_Some (r_userHospital req)) →
  check_hospital req (r_userHospital req) = Allowed.
Proof.
  unfold check_hospital. intros [-> | [h ->]]; [done|].
  destruct (negb _); [|done]. by rewrite String.eqb_refl.
Qed.

(** X26.  A create that replies 201 had a non-empty patient id and
    title and an existing patient; it stores one report under the new id,
    for that patient, by that user, stamped with the user's hospital,
    which for a user who is not SUPER_ADMIN is the hospital of the
    patient; no other report changes; and the same user reads the new
    report back with GET. *)
Theorem created_report_reads_back e e' f req st b :
  fst (createReport e f req st) = RJson 201 b →
  ∃ doc created,
    present (b_patientId (r_body req)) = true ∧
    present (b_title (r_body req)) = true ∧
    r_patients st !! text (b_patientId (r_body req)) = Some doc ∧
    r_reports (snd (createReport e f req st)) !! new_id e = Some created ∧
    rep_patient created = text (b_patientId (r_body req)) ∧
    rep_title created = text (b_title (r_body req)) ∧
    rep_createdBy created = r_userId req ∧
    rep_hospital created = r_userHospital req ∧
    (r_userRole req ≠ "SUPER_ADMIN" → rep_hospital created = patient_hospital doc) ∧
    (∀ id, id ≠ new_id e →
           r_reports (snd (createReport e f req st)) !! id = r_reports st !! id) ∧
    getReport e' no_rfaults (again req (new_id e)) (snd (createReport e f req st))
      = (RJson 200 (RReport None (new_id e) created), snd (createReport e f req st)).
Proof.
  unfold createReport.
  destruct (present (b_patientId (r_body req))) eqn:Hp; [|done].
  destruct (present (b_title (r_body req))) eqn:Ht; [|done]. simpl.
  destruct (patient_read_fails f); [done|].
  destruct (r_patients st !! text (b_patientId (r_body req))) as [doc|]; [|done].
  destruct (check_hospital req (patient_hospital doc)) eqn:Hcheck; [|done..].
  destruct (report_write_fails f); [done|].
  destruct (report_populate_fails f); [done|]. intros _. simpl.
  eexists doc, _. rewrite lookup_insert_eq.
  do 8 (split; [reflexivity|]).
  assert (r_userRole req = "SUPER_ADMIN" ∨
          (r_userRole req ≠ "SUPER_ADMIN" ∧
           ∃ h, patient_hospital doc = Some h ∧ r_userHospital req = Some h)) as Hwho.
  { unfold check_hospital in Hcheck.
    destruct (String.eqb (r_userRole req) "SUPER_ADMIN") eqn:E.
    - left. by apply String.eqb_eq.
    - right. split; [by intros H%String.eqb_eq; congruence|]. simpl in Hcheck.
      destruct (patient_hospital doc) as [a|]; [|done].
      destruct (r_userHospital req) as [h|]; [|done].
      destruct (String.eqb a h) eqn:E'; [|done].
      apply String.eqb_eq in E' as ->. eauto. }
  split; [|split].
  - intros Hrole. destruct Hwho as [? | (_ & h & -> & ->)]; done.
  - intros id Hne. by rewrite lookup_insert_ne.
  - unfold getReport. simpl. rewrite lookup_insert_eq. simpl.
    assert (check_hospital (again req (new_id e)) (r_userHospital req) = Allowed) as ->.
    { apply (check_hospital_own (again req (new_id e))). simpl.
      destruct Hwho as [? | (_ & h & _ & ->)]; eauto. }
    done.
Qed.

Lemma created_report_reads_back_witness :
  ∃ doc created,
    present (Some "p1") = true ∧
    present (Some "MRI") = true ∧
    r_patients stR !! "p1" = Some doc ∧
    r_reports (snd (createReport env0 no_rfaults
        (staff "h1" EmptyString (mkBody (Some "p1") (Some "MRI") None None None None)) stR))
      !! "a3" = Some created ∧
    rep_patient created = "p1" ∧
    rep_title created = "MRI" ∧
    rep_createdBy created = "u1" ∧
    rep_hospital created = Some "h1" ∧
    ("HOSPITAL_ADMIN" ≠ "SUPER_ADMIN" → rep_hospital created = patient_hospital doc) ∧
    (∀ id, id ≠ "a3" →
       r_reports (snd (createReport env0 no_rfaults
         (staff "h1" EmptyString (mkBody (Some "p1") (Some "MRI") None None None None)) stR))
         !! id = r_reports stR !! id) ∧
    getReport env0 no_rfaults
      (again (staff "h1" EmptyString (mkBody (Some "p1") (Some "MRI") None None None None))
             "a3")
      (snd (createReport env0 no_rfaults
         (staff "h1" EmptyString (mkBody (Some "p1") (Some "MRI") None None None None)) stR))
    = (RJson 200 (RReport None "a3" created),
       snd (createReport env0 no_rfaults
         (staff "h1" EmptyString (mkBody (Some "p1") (Some "MRI") None None None None)) stR)).
Proof.
  apply (created_report_reads_back env0 env0 no_rfaults
           (staff "h1" EmptyString (mkBody (Some "p1") (Some "MRI") None None None None))
           stR
           (RReport (Some "Report created successfully") "a3"
              (mkReport "p1" (Some "h1") "MRI" EmptyString "Other" 1000 EmptyString "u1"))).
  reflexivity.
Defined.

(** X27.  A create with a missing or empty patient id or title replies
    400 before anything is looked up: the store is untouched whatever the
    role, the faults and the rest of the body; and the fields left out of
    an accepted create get their defaults (empty description and file
    URL, type Other, the current time as date). *)
Theorem create_validates_and_defaults e f req st :
  (present (b_patientId (r_body req)) = false ∨ present (b_title (r_body req)) = false →
   createReport e f req st
   = (RJson 400 (RMessage false "Patient ID and title are required"), st)) ∧
  (∀ message id created,
     fst (createReport e f req st) = RJson 201 (RReport message id created) →
     rep_description created = or_else (b_description (r_body req)) EmptyString ∧
     rep_reportType created = or_else (b_reportType (r_body req)) "Other" ∧
     rep_reportFileUrl created = or_else (b_reportFileUrl (r_body req)) EmptyString ∧
     (present (b_reportDate (r_body req)) = false → rep_reportDate created = now e) ∧
     r_reports (snd (createReport e f req st)) !! id = Some created).
Proof.
  split.
  - unfold createReport.
    destruct (present (b_patientId (r_body req))), (present (b_title (r_body req)));
      by intros [? | ?].
  - intros message id created. unfold createReport.
    destruct (negb _ || negb _); [done|].
    destruct (patient_read_fails f); [done|].
    destruct (r_patients st !! text (b_patientId (r_body req))) as [doc|]; [|done].
    destruct (check_hospital req (patient_hospital doc)); [|done..].
    destruct (report_write_fails f); [done|].
    destruct (report_populate_fails f); [done|].
    intros [= <- <- <-]. simpl.
    rewrite lookup_insert_eq. do 3 (split; [done|]). split; [|done].
    by intros ->.
Qed.

Lemma create_validates_and_defaults_witness :
  createReport env0 no_rfaults
    (staff "h1" EmptyString (mkBody (Some "p1") (Some EmptyString) None None None None)) stR
  = (RJson 400 (RMessage false "Patient ID and title are required"), stR).
Proof.
  destruct (create_validates_and_defaults env0 no_rfaults
    (staff "h1" EmptyString (mkBody (Some "p1") (Some EmptyString) None None None None)) stR)
    as [H400 _].
  apply H400. right. reflexivity.
Defined.

Lemma reports_of_elem st pid id doc :
  (id, doc) ∈ reports_of pid st ↔ r_reports st !! id = Some doc ∧ rep_patient doc = pid.
Proof.
  unfold reports_of. rewrite list_elem_of_filter, elem_of_map_to_list. simpl. tauto.
Qed.

(** X28.  For a caller who passes the hospital check, the listing of a
    patient's reports holds exactly the reports stored for that patient,
    each once, newest report date first, and its count is its length. *)
Theorem listReports_exact e f req st doc :
  patient_read_fails f = false →
  report_read_fails f = false →
  r_patients st !! r_param req = Some doc →
  check_hospital req (patient_hospital doc) = Allowed →
  ∃ found,
    listReports e f req st = (RJson 200 (RReports (length found) found), st) ∧
    StronglySorted newest_report found ∧
    NoDup found.*1 ∧
    (∀ id rep, (id, rep) ∈ found ↔
               r_reports st !! id = Some rep ∧ rep_patient rep = r_param req).
Proof.
  intros Hf1 Hf2 Hdoc Hcheck. unfold listReports.
  rewrite Hf1, Hdoc, Hcheck, Hf2.
  eexists. split; [reflexivity|]. split; [|split].
  - apply StronglySorted_merge_sort; apply _.
  - rewrite merge_sort_Permutation. unfold reports_of.
    apply (sublist_NoDup _ (map_to_list (r_reports st)).*1).
    + apply NoDup_fst_map_to_list.
    + apply fmap_sublist, sublist_filter.
  - intros id rep. rewrite merge_sort_Permutation. apply reports_of_elem.
Qed.

Lemma listReports_exact_witness :
  ∃ found,
    listReports env0 no_rfaults (staff "h1" "p1" no_body) stR
      = (RJson 200 (RReports (length found) found), stR) ∧
    StronglySorted newest_report found ∧
    NoDup found.*1 ∧
    (∀ id rep, (id, rep) ∈ found ↔
               r_reports stR !! id = Some rep ∧ rep_patient rep = "p1").
Proof.
  apply (listReports_exact env0 no_rfaults (staff "h1" "p1" no_body) stR bob);
    reflexivity.
Defined.

End ReportFacts.

(** ** Runs that interleave *)

Section InterleavingFacts.
Import JS Store Admin Engine Interleaving Scenarios.

(** A run on its own is the handler: same reply, same store. *)
Lemma alone_is_approve f req st :
  reply_of (fst (alone (start Approving f req) st)) = Some (fst (approve f req st)) ∧
  snd (alone (start Approving f req) st) = snd (approve f req st).
Proof.
  rewrite approve_unfold. unfold alone, start, is_super_admin.
  destruct (negb (String.eqb (userRole req) "SUPER_ADMIN")); [done|].
  cbn. destruct (requests_read_fails f); cbn; [done|].
  destruct (requests st !! params_id req) as [r|]; cbn; [|done].
  destruct (negb (is_pending r)); cbn; [done|].
  destruct (patients_read_fails f); cbn; [done|].
  destruct (patients st !! patient r) as [doc|]; cbn; [|done].
  destruct (patients_write_fails f); cbn; [done|].
  destruct (requests_write_fails f); done.
Qed.

Lemma alone_is_reject f req st :
  reply_of (fst (alone (start Rejecting f req) st)) = Some (fst (reject f req st)) ∧
  snd (alone (start Rejecting f req) st) = snd (reject f req st).
Proof.
  rewrite reject_unfold. unfold alone, start, is_super_admin.
  destruct (negb (String.eqb (userRole req) "SUPER_ADMIN")); [done|].
  cbn. destruct (requests_read_fails f); cbn; [done|].
  destruct (requests st !! params_id req) as [r|]; cbn; [|done].
  destruct (negb (is_pending r)); cbn; [done|].
  destruct (requests_write_fails f); done.
Qed.

(** An approve and a reject of one PENDING request whose awaits
    interleave: both reply with success, neither is told that the request
    is already processed, and the status goes PENDING, APPROVED, REJECTED. *)
Lemma interleaved_resolutions_change_status_twice :
  reply_of <$> fst both_resolve
    = [Some (Json 200 (PatientUpdated "Request approved and patient updated" alice_after));
       Some (Json 200 (Message true "Request rejected"))] ∧
  map (status_in "r1") (snd both_resolve)
    = [Some PENDING; Some PENDING; Some PENDING; Some PENDING; Some PENDING;
       Some APPROVED; Some REJECTED] ∧
  ¬ (transitions (map (status_in "r1") (snd both_resolve)) ≤ 1)%nat.
Proof.
  split; [reflexivity|]. split; [reflexivity|].
  vm_compute. lia.
Qed.

End InterleavingFacts.

(** ** The diff on field names *)

Section DiffOnFields.
Import JS Store Client Page Frame Unquote Dashboard Domain Scenarios.














End DiffOnFields.
